(** * AptiPro: the practice session, the leaderboard rank and the dashboard
      suggestion, embedded from the TypeScript sources.

    - [Types]       : the interfaces of [types.ts].
    - [JS]          : the few run-time behaviours of JavaScript arrays, strings
                      and objects the components rely on.
    - [Practice]    : the handlers and the render function of
                      [components/Practice.tsx], as state-passing functions
                      that also return the effects they issue.
    - [Leaderboard] : the rank computation of [components/Leaderboard.tsx].
    - [Dashboard]   : [processSuggestions] of [components/Dashboard.tsx], on
                      IEEE binary64 numbers.

    Numbers: array lengths, the cursor, the score and the points are
    natural numbers and the clock and the stored profile score are
    integers, all far below [2^53], where binary64 arithmetic is exact;
    they are modelled by [nat] and [Z].  The fields of a test result are
    divided, so the dashboard keeps them as binary64 floats.

    Definitions come first; every lemma and theorem follows them. *)

From Stdlib Require Import String Ascii Bool Arith ZArith Lia Floats List.
Import ListNotations.

Open Scope string_scope.
Open Scope nat_scope.
Open Scope list_scope.

(* ================================================================== *)
(** ** [types.ts] *)

Module Types.

(** [User] is the backend's user object; only [id] is read. *)
Module User.
Record t := { id : string }.
End User.

Module Profile.
Record t := {
  id : string;
  username : option string;
  avatar_url : option string;
  score : Z
}.
End Profile.

Module Question.
Record t := {
  question : string;
  options : list string;
  correctAnswer : string;
  explanation : string
}.
End Question.

End Types.

(* ================================================================== *)
(** ** JavaScript run-time behaviour used by the components *)

Module JS.

(** One position of the [answers] array.  It is declared [string[]] but
    is filled with [null]; writing past the end leaves holes, and a spread
    copy turns a hole into [undefined]. *)
Inductive slot :=
| Hole
| Undefined
| Null
| Str (s : string).

(** [a === s] for a slot [a] and a string [s]. *)
Definition strict_eq (a : slot) (s : string) : bool :=
  match a with
  | Str x => String.eqb x s
  | _ => false
  end.

(** [[...a]] *)
Definition spread (a : list slot) : list slot :=
  map (fun c => match c with Hole => Undefined | _ => c end) a.

(** In-range replacement of position [i]. *)
Fixpoint replace_at (a : list slot) (i : nat) (v : slot) : list slot :=
  match a, i with
  | [], _ => []
  | _ :: r, O => v :: r
  | c :: r, S j => c :: replace_at r j v
  end.

(** [a[i] = v]: in range it overwrites, past the end the array grows and
    the positions in between are holes. *)
Definition assign (a : list slot) (i : nat) (v : slot) : list slot :=
  if i <? length a then replace_at a i v
  else a ++ repeat Hole (i - length a) ++ [v].

(** [new Array(n).fill(null)] *)
Definition filled_null (n : nat) : list slot := repeat Null n.

(** [a.filter((x, i) => p(x, i))], the callback receiving the index;
    holes are skipped without calling the callback.  [i] is the index of
    the head of [a]. *)
Fixpoint filter_from (p : slot -> nat -> bool) (i : nat) (a : list slot)
  : list slot :=
  match a with
  | [] => []
  | Hole :: r => filter_from p (S i) r
  | c :: r =>
      if p c i then c :: filter_from p (S i) r else filter_from p (S i) r
  end.

Definition filter (p : slot -> nat -> bool) (a : list slot) : list slot :=
  filter_from p 0 a.

(** The same with a callback that may throw ([None]); the exception
    propagates out of [filter]. *)
Fixpoint filter_exn_from (p : slot -> nat -> option bool) (i : nat)
    (a : list slot) : option (list slot) :=
  match a with
  | [] => Some []
  | Hole :: r => filter_exn_from p (S i) r
  | c :: r =>
      match p c i with
      | None => None
      | Some b =>
          match filter_exn_from p (S i) r with
          | None => None
          | Some k => Some (if b then c :: k else k)
          end
      end
  end.

Definition filter_exn (p : slot -> nat -> option bool) (a : list slot)
  : option (list slot) :=
  filter_exn_from p 0 a.

(** Truthiness of a [string | null] value: [null] and the empty string
    are falsy. *)
Definition truthy (v : option string) : bool :=
  match v with
  | Some s => negb (String.eqb s "")
  | None => false
  end.

(** *** Plain objects used as string-keyed maps

    An object literal [{}] is modelled by its own properties in creation
    order; it also inherits the properties of [Object.prototype]. *)

Definition objectPrototypeKeys : list string :=
  [ "constructor"; "__defineGetter__"; "__defineSetter__";
    "hasOwnProperty"; "__lookupGetter__"; "__lookupSetter__";
    "isPrototypeOf"; "propertyIsEnumerable"; "toString"; "valueOf";
    "__proto__"; "toLocaleString" ].

Definition inherited (k : string) : bool :=
  existsb (String.eqb k) objectPrototypeKeys.

Section Obj.
Context {V : Type}.

Fixpoint getOwn (o : list (string * V)) (k : string) : option V :=
  match o with
  | [] => None
  | (j, v) :: r => if String.eqb j k then Some v else getOwn r k
  end.

Definition hasOwn (o : list (string * V)) (k : string) : bool :=
  match getOwn o k with Some _ => true | None => false end.

(** Rewrites the value of an existing own property in place. *)
Fixpoint updateOwn (o : list (string * V)) (k : string) (f : V -> V)
  : list (string * V) :=
  match o with
  | [] => []
  | (j, v) :: r =>
      if String.eqb j k then (j, f v) :: r
      else (j, v) :: updateOwn r k f
  end.
End Obj.

(** A property name is an array index when it is the canonical decimal
    form of an integer below [2^32 - 1]. *)
Definition isDigit (c : ascii) : bool :=
  (48 <=? nat_of_ascii c) && (nat_of_ascii c <=? 57).

Fixpoint digitsValue (s : string) (acc : N) : option N :=
  match s with
  | EmptyString => Some acc
  | String c r =>
      if isDigit c
      then digitsValue r (acc * 10 + (N_of_ascii c - 48))%N
      else None
  end.

Definition arrayIndex (s : string) : option N :=
  match s with
  | EmptyString => None
  | String c r =>
      if Ascii.eqb c "0" && negb (String.eqb r "") then None
      else
        match digitsValue s 0%N with
        | Some n => if (n <? 4294967295)%N then Some n else None
        | None => None
        end
  end.

Fixpoint insertIndex (n : N) (k : string) (l : list (N * string))
  : list (N * string) :=
  match l with
  | [] => [(n, k)]
  | (m, j) :: r =>
      if (n <? m)%N then (n, k) :: l else (m, j) :: insertIndex n k r
  end.

Fixpoint indexKeys (ks : list string) : list (N * string) :=
  match ks with
  | [] => []
  | k :: r =>
      match arrayIndex k with
      | Some n => insertIndex n k (indexKeys r)
      | None => indexKeys r
      end
  end.

(** The order in which [for (const k in o)] visits the own properties
    whose names are [ks] in creation order: array indices first, by
    value, then the other names as created. *)
Definition forInOrder (ks : list string) : list string :=
  map snd (indexKeys ks)
  ++ List.filter
       (fun k => match arrayIndex k with Some _ => false | None => true end)
       ks.

End JS.

(* ================================================================== *)
(** ** [components/Practice.tsx] *)

Module Practice.
Import Types.

Inductive TestState := NotStarted | Loading | InProgress | Completed.

Definition TestState_eqb (a b : TestState) : bool :=
  match a, b with
  | NotStarted, NotStarted | Loading, Loading
  | InProgress, InProgress | Completed, Completed => true
  | _, _ => false
  end.

Record Topic := { name : string; description : string; key : string }.

Definition topics : list Topic :=
  [ {| name := "Quantitative Aptitude";
       description := "Test your numerical and mathematical skills.";
       key := "quantitative-aptitude" |};
    {| name := "Logical Reasoning";
       description := "Assess your problem-solving abilities.";
       key := "logical-reasoning" |};
    {| name := "Verbal Ability";
       description := "Check your command over the English language.";
       key := "verbal-ability" |};
    {| name := "General Knowledge";
       description := "Evaluate your awareness of current affairs.";
       key := "general-knowledge" |};
    {| name := "Data Interpretation";
       description := "Analyze data from charts and graphs.";
       key := "data-interpretation" |} ].

(** The component's [useState] cells, followed by what it reads from the
    router ([topicKey]) and from the auth context ([user], [profile]). *)
Record State := {
  testState : TestState;
  questions : list Question.t;
  currentQuestionIndex : nat;
  answers : list JS.slot;
  showExplanation : bool;
  timeLeft : Z;
  saveError : option string;
  topicKey : option string;
  user : option User.t;
  profile : option Profile.t
}.

(** State on mount. *)
Definition initial (k : option string) (u : option User.t)
    (p : option Profile.t) : State :=
  {| testState := NotStarted; questions := []; currentQuestionIndex := 0;
     answers := []; showExplanation := false; timeLeft := 300;
     saveError := None; topicKey := k; user := u; profile := p |}.

Definition setTestState (v : TestState) (s : State) : State :=
  {| testState := v; questions := questions s;
     currentQuestionIndex := currentQuestionIndex s; answers := answers s;
     showExplanation := showExplanation s; timeLeft := timeLeft s;
     saveError := saveError s; topicKey := topicKey s; user := user s;
     profile := profile s |}.

Definition setQuestions (v : list Question.t) (s : State) : State :=
  {| testState := testState s; questions := v;
     currentQuestionIndex := currentQuestionIndex s; answers := answers s;
     showExplanation := showExplanation s; timeLeft := timeLeft s;
     saveError := saveError s; topicKey := topicKey s; user := user s;
     profile := profile s |}.

Definition setCurrentQuestionIndex (v : nat) (s : State) : State :=
  {| testState := testState s; questions := questions s;
     currentQuestionIndex := v; answers := answers s;
     showExplanation := showExplanation s; timeLeft := timeLeft s;
     saveError := saveError s; topicKey := topicKey s; user := user s;
     profile := profile s |}.

Definition setAnswers (v : list JS.slot) (s : State) : State :=
  {| testState := testState s; questions := questions s;
     currentQuestionIndex := currentQuestionIndex s; answers := v;
     showExplanation := showExplanation s; timeLeft := timeLeft s;
     saveError := saveError s; topicKey := topicKey s; user := user s;
     profile := profile s |}.

Definition setShowExplanation (v : bool) (s : State) : State :=
  {| testState := testState s; questions := questions s;
     currentQuestionIndex := currentQuestionIndex s; answers := answers s;
     showExplanation := v; timeLeft := timeLeft s;
     saveError := saveError s; topicKey := topicKey s; user := user s;
     profile := profile s |}.

Definition setTimeLeft (v : Z) (s : State) : State :=
  {| testState := testState s; questions := questions s;
     currentQuestionIndex := currentQuestionIndex s; answers := answers s;
     showExplanation := showExplanation s; timeLeft := v;
     saveError := saveError s; topicKey := topicKey s; user := user s;
     profile := profile s |}.

Definition setSaveError (v : option string) (s : State) : State :=
  {| testState := testState s; questions := questions s;
     currentQuestionIndex := currentQuestionIndex s; answers := answers s;
     showExplanation := showExplanation s; timeLeft := timeLeft s;
     saveError := v; topicKey := topicKey s; user := user s;
     profile := profile s |}.

Definition setTopicKey (v : option string) (s : State) : State :=
  {| testState := testState s; questions := questions s;
     currentQuestionIndex := currentQuestionIndex s; answers := answers s;
     showExplanation := showExplanation s; timeLeft := timeLeft s;
     saveError := saveError s; topicKey := v; user := user s;
     profile := profile s |}.

(** [setProfile(f)] with an updater function. *)
Definition setProfile (f : option Profile.t -> option Profile.t)
    (s : State) : State :=
  {| testState := testState s; questions := questions s;
     currentQuestionIndex := currentQuestionIndex s; answers := answers s;
     showExplanation := showExplanation s; timeLeft := timeLeft s;
     saveError := saveError s; topicKey := topicKey s; user := user s;
     profile := f (profile s) |}.

(** [topics.find(t => t.key === topicKey)]; an absent route parameter
    matches no topic. *)
Definition selectedTopic (s : State) : option Topic :=
  match topicKey s with
  | None => None
  | Some k => find (fun t => String.eqb (key t) k) topics
  end.

(** The collaborators the component calls.  An answer of the backend is
    [None] on success and [Some message] for an error object with that
    [message]. *)
Record Backend := {
  generateAptitudeQuestions : string -> nat -> list Question.t;
  insertTestResult :
    string (* user_id *) -> string (* topic *) -> nat (* score *) ->
    nat (* total_questions *) -> option string;
  incrementUserScore : nat (* increment_value *) -> option string
}.

(** What a handler does to the outside world, in order. *)
Inductive Event :=
| Insert (user_id topic : string) (score total_questions : nat)
         (error : option string)
| Rpc (increment_value : nat) (error : option string)
| ConsoleError (message : string)
| Alert (message : string)
| Navigate (path : string).

(** [answers.filter((ans, i) => questions[i] && ans ===
    questions[i].correctAnswer).length] *)
Definition correctAt (qs : list Question.t) (ans : JS.slot) (i : nat)
  : bool :=
  match nth_error qs i with
  | Some q => JS.strict_eq ans (Question.correctAnswer q)
  | None => false
  end.

Definition computeScore (s : State) : nat :=
  length (JS.filter (correctAt (questions s)) (answers s)).

Definition handleCompletion (B : Backend) (s : State)
  : State * list Event :=
  if TestState_eqb (testState s) Completed then (s, [])
  else
    let s1 := setTestState Completed s in
    let score := computeScore s in
    let s2 := setSaveError None s1 in
    match selectedTopic s, user s with
    | Some t, Some u =>
        let total := length (questions s) in
        match insertTestResult B (User.id u) (name t) score total with
        | Some e =>
            (setSaveError (Some e) s2,
             [Insert (User.id u) (name t) score total (Some e);
              ConsoleError e])
        | None =>
            let pointsEarned := score * 100 in
            if 0 <? pointsEarned then
              match incrementUserScore B pointsEarned with
              | Some e =>
                  (setSaveError (Some e) s2,
                   [Insert (User.id u) (name t) score total None;
                    Rpc pointsEarned (Some e);
                    ConsoleError e])
              | None =>
                  (setProfile
                     (fun prev =>
                        match prev with
                        | Some p =>
                            Some {| Profile.id := Profile.id p;
                                    Profile.username := Profile.username p;
                                    Profile.avatar_url :=
                                      Profile.avatar_url p;
                                    Profile.score :=
                                      (Profile.score p
                                       + Z.of_nat pointsEarned)%Z |}
                        | None => None
                        end) s2,
                   [Insert (User.id u) (name t) score total None;
                    Rpc pointsEarned None])
              end
            else
              (s2, [Insert (User.id u) (name t) score total None])
        end
    | _, _ => (s2, [])
    end.

Definition startTest (B : Backend) (topicName : string) (s : State)
  : State * list Event :=
  let s1 := setSaveError None (setTestState Loading s) in
  let fetchedQuestions := generateAptitudeQuestions B topicName 5 in
  if 0 <? length fetchedQuestions then
    (setTestState InProgress
       (setTimeLeft 300
          (setShowExplanation false
             (setCurrentQuestionIndex 0
                (setAnswers (JS.filled_null (length fetchedQuestions))
                   (setQuestions fetchedQuestions s1))))),
     [])
  else
    (setTestState NotStarted s1,
     [Alert "Could not load questions. Please try again.";
      Navigate "/practice"]).

Definition handleAnswer (option : string) (s : State) : State :=
  let newAnswers :=
    JS.assign (JS.spread (answers s)) (currentQuestionIndex s)
              (JS.Str option) in
  setShowExplanation true (setAnswers newAnswers s).

Definition goToNextQuestion (B : Backend) (s : State)
  : State * list Event :=
  let s1 := setShowExplanation false s in
  if (Z.of_nat (currentQuestionIndex s)
      <? Z.of_nat (length (questions s)) - 1)%Z
  then (setCurrentQuestionIndex (currentQuestionIndex s + 1) s1, [])
  else handleCompletion B s1.

Definition resetTest (s : State) : State * list Event :=
  (setQuestions [] (setTestState NotStarted s), [Navigate "/practice"]).

(** The effect on [[topicKey]]: it runs when the route parameter
    becomes [k]. *)
Definition routeEffect (B : Backend) (k : option string) (s : State)
  : State * list Event :=
  let s1 := setTopicKey k s in
  match JS.truthy k, selectedTopic s1 with
  | true, Some t => startTest B (name t) s1
  | _, _ => resetTest s1
  end.

(** The effect on [[timeLeft, testState]], second branch: with the clock
    at zero during a test it completes the test.  (The first branch only
    arms the one-second timeout modelled by [tick].) *)
Definition timerEffect (B : Backend) (s : State) : State * list Event :=
  if TestState_eqb (testState s) InProgress && (0 <? timeLeft s)%Z then
    (s, [])
  else if (timeLeft s =? 0)%Z && TestState_eqb (testState s) InProgress
  then handleCompletion B s
  else (s, []).

(** The armed timeout fires, [setTimeLeft(timeLeft - 1)], and the effect
    runs again on the new state.  A timeout is armed only during a test
    with time left. *)
Definition tick (B : Backend) (s : State) : State * list Event :=
  if TestState_eqb (testState s) InProgress && (0 <? timeLeft s)%Z then
    timerEffect B (setTimeLeft (timeLeft s - 1) s)
  else (s, []).

(** The operations of a running session. *)
Inductive Action :=
| Answer (option : string)
| Next
| Tick
| Complete.

Definition step (B : Backend) (a : Action) (s : State)
  : State * list Event :=
  match a with
  | Answer o => (handleAnswer o s, [])
  | Next => goToNextQuestion B s
  | Tick => tick B s
  | Complete => handleCompletion B s
  end.

(** Runs the actions one render apart: each handler is the one built by
    the render of the state its predecessor left.  (Two handlers of the
    same render are the subject of [PracticeClosure].) *)
Fixpoint run (B : Backend) (l : list Action) (s : State)
  : State * list Event :=
  match l with
  | [] => (s, [])
  | a :: r =>
      let '(s1, e1) := step B a s in
      let '(s2, e2) := run B r s1 in
      (s2, e1 ++ e2)
  end.

(** *** Rendering *)

Inductive Panel :=
| SetupInstructions (error : string)
| XPEarned (xp : nat).

Inductive View :=
| TopicSelection
| Spinner
| CompletedView (score total : nat) (panel : Panel)
| QuestionView (number total : nat) (current : Question.t)
               (optionsDisabled : bool) (explanationShown : bool)
               (clock : Z)
| Nothing.

(** The score of the completed view: the same filter without the
    [questions[i] &&] guard, so reading [correctAnswer] of a missing
    question throws. *)
Definition viewScore (s : State) : option nat :=
  option_map (@length JS.slot)
    (JS.filter_exn
       (fun ans i =>
          match nth_error (questions s) i with
          | Some q => Some (JS.strict_eq ans (Question.correctAnswer q))
          | None => None
          end)
       (answers s)).

(** The component body after the hooks; [None] when rendering throws. *)
Definition render (s : State) : option View :=
  if negb (JS.truthy (topicKey s))
     || match selectedTopic s with Some _ => false | None => true end
  then Some TopicSelection
  else if TestState_eqb (testState s) Loading then Some Spinner
  else if TestState_eqb (testState s) Completed then
    match viewScore s with
    | None => None
    | Some score =>
        Some (CompletedView score (length (questions s))
                (if JS.truthy (saveError s)
                 then SetupInstructions
                        (match saveError s with Some e => e | None => "" end)
                 else XPEarned (score * 100)))
    end
  else if TestState_eqb (testState s) InProgress
          && (0 <? length (questions s)) then
    match nth_error (questions s) (currentQuestionIndex s) with
    | None => None
    | Some currentQuestion =>
        Some (QuestionView (currentQuestionIndex s + 1)
                (length (questions s)) currentQuestion
                (showExplanation s) (showExplanation s) (timeLeft s))
    end
  else Some Nothing.

(** The view has an enabled button whose click calls
    [handleAnswer(o)]. *)
Definition offersAnswer (v : View) (o : string) : bool :=
  match v with
  | QuestionView _ _ q disabled _ _ =>
      negb disabled && existsb (String.eqb o) (Question.options q)
  | _ => false
  end.

(** The completed view prints [+n XP Earned]. *)
Definition showsXP (v : View) (n : nat) : bool :=
  match v with
  | CompletedView _ _ (XPEarned x) => Nat.eqb x n
  | _ => false
  end.

(** The completed view prints [n / total]. *)
Definition showsScore (v : View) (n : nat) : bool :=
  match v with
  | CompletedView sc _ _ => Nat.eqb sc n
  | _ => false
  end.

(** *** The quantities the session is described with *)

(** Position [i] holds an answer equal to the correct answer of
    question [i]. *)
Definition answeredCorrectly (qs : list Question.t) (ans : list JS.slot)
    (i : nat) : bool :=
  match nth_error ans i, nth_error qs i with
  | Some a, Some q => JS.strict_eq a (Question.correctAnswer q)
  | _, _ => false
  end.

(** The indices [i] with [answers[i]] equal to
    [questions[i].correctAnswer]. *)
Definition matchingIndices (qs : list Question.t) (ans : list JS.slot)
  : list nat :=
  List.filter (answeredCorrectly qs ans) (seq 0 (length ans)).

(** What holds of a session between its start and [resetTest]. *)
Definition sessionInv (s : State) : Prop :=
  length (answers s) = length (questions s)
  /\ currentQuestionIndex s < length (questions s).

(** *** A small session to evaluate the handlers on *)

Definition q1 : Question.t :=
  {| Question.question := "2 + 2 = ?";
     Question.options := ["3"; "4"; "5"; "6"];
     Question.correctAnswer := "4";
     Question.explanation := "Two and two is four." |}.

Definition q2 : Question.t :=
  {| Question.question := "3 * 3 = ?";
     Question.options := ["6"; "9"; "12"; "1"];
     Question.correctAnswer := "9";
     Question.explanation := "Three threes are nine." |}.

Definition alice : User.t := {| User.id := "alice" |}.

Definition aliceProfile : Profile.t :=
  {| Profile.id := "alice"; Profile.username := Some "alice";
     Profile.avatar_url := None; Profile.score := 500 |}.

(** Two questions per test, every write accepted. *)
Definition healthy : Backend :=
  {| generateAptitudeQuestions := fun _ _ => [q1; q2];
     insertTestResult := fun _ _ _ _ => None;
     incrementUserScore := fun _ => None |}.

(** The same with the [test_results] insert refused. *)
Definition insertDown : Backend :=
  {| generateAptitudeQuestions := fun _ _ => [q1; q2];
     insertTestResult :=
       fun _ _ _ _ => Some "relation test_results does not exist";
     incrementUserScore := fun _ => None |}.

(** Alice opens [/practice/verbal-ability]. *)
Definition started (B : Backend) : State :=
  fst (routeEffect B (Some "verbal-ability")
         (initial None (Some alice) (Some aliceProfile))).

(** The same for a visitor who is not signed in. *)
Definition startedAnonymous (B : Backend) : State :=
  fst (routeEffect B (Some "verbal-ability") (initial None None None)).

End Practice.

(* ================================================================== *)
(** ** [components/Leaderboard.tsx] *)

Module Leaderboard.
Import Types.

(** [LeaderboardUser extends Profile] with a [rank]. *)
Record LeaderboardUser := { base : Profile.t; rank : nat }.

(** Answer to [select('*', {count: 'exact', head: true}).gt('score', v)]. *)
Record CountResponse := {
  count : option nat;
  rankError : option string
}.

(** Answer to the top-ten query. *)
Record TopResponse := {
  data : option (list Profile.t);
  error : option string
}.

Record Backend := {
  selectTop : TopResponse;
  countScoreGt : Z -> CountResponse
}.

(** What the hosted backend answers to the count request over a
    [profiles] table: the exact number of rows with [score > v]. *)
Definition exactCountGt (table : list Profile.t) (v : Z) : CountResponse :=
  {| count :=
       Some (length (List.filter (fun p => (v <? Profile.score p)%Z) table));
     rankError := None |}.

Record State := {
  leaderboard : list LeaderboardUser;
  userRank : option nat;
  loading : bool;
  fetchError : option string;
  user : option User.t;
  profile : option Profile.t
}.

Definition setLeaderboard (v : list LeaderboardUser) (s : State) : State :=
  {| leaderboard := v; userRank := userRank s; loading := loading s;
     fetchError := fetchError s; user := user s; profile := profile s |}.

Definition setUserRank (v : option nat) (s : State) : State :=
  {| leaderboard := leaderboard s; userRank := v; loading := loading s;
     fetchError := fetchError s; user := user s; profile := profile s |}.

Definition setLoading (v : bool) (s : State) : State :=
  {| leaderboard := leaderboard s; userRank := userRank s; loading := v;
     fetchError := fetchError s; user := user s; profile := profile s |}.

Definition setFetchError (v : option string) (s : State) : State :=
  {| leaderboard := leaderboard s; userRank := userRank s;
     loading := loading s; fetchError := v; user := user s;
     profile := profile s |}.

(** [data.map((p, index) => ({ ...p, rank: index + 1 }))], [i] being the
    index of the head. *)
Fixpoint rankFrom (i : nat) (l : list Profile.t) : list LeaderboardUser :=
  match l with
  | [] => []
  | p :: r => {| base := p; rank := i + 1 |} :: rankFrom (S i) r
  end.

(** [count ?? 0] *)
Definition orZero (c : option nat) : nat :=
  match c with Some n => n | None => 0 end.

Definition fetchLeaderboardData (B : Backend) (s : State) : State :=
  let s1 := setFetchError None s in
  match error (selectTop B) with
  | Some e => setFetchError (Some e) s1
  | None =>
      let s2 :=
        match data (selectTop B) with
        | Some d => setLeaderboard (rankFrom 0 d) s1
        | None => s1
        end in
      match profile s with
      | Some p =>
          let r := countScoreGt B (Profile.score p) in
          match rankError r with
          | Some _ => s2
          | None => setUserRank (Some (orZero (count r) + 1)) s2
          end
      | None => s2
      end
  end.

Definition performInitialFetch (B : Backend) (s : State) : State :=
  setLoading false (fetchLeaderboardData B (setLoading true s)).

(** [leaderboard.some(p => p.id === user?.id)] *)
Definition isUserInTop10 (s : State) : bool :=
  match user s with
  | Some u =>
      existsb (fun p => String.eqb (Profile.id (base p)) (User.id u))
              (leaderboard s)
  | None => false
  end.

(** The rank printed in the separate row for the current user below the
    table, when that row is rendered:
    [!isUserInTop10 && profile && userRank && (...)] inside the branch
    that draws the table. *)
Definition ownRowRank (s : State) : option nat :=
  if loading s then None
  else if JS.truthy (fetchError s) then None
  else if length (leaderboard s) =? 0 then None
  else if negb (isUserInTop10 s) then
    match profile s, userRank s with
    | Some _, Some n => if n =? 0 then None else Some n
    | _, _ => None
    end
  else None.

(** The hosted backend over a [profiles] table; [top] is its answer to
    the top-ten query. *)
Definition hosted (top : TopResponse) (table : list Profile.t) : Backend :=
  {| selectTop := top; countScoreGt := exactCountGt table |}.

(** Number of profiles of the table scoring strictly more than [v]. *)
Definition strictlyAbove (table : list Profile.t) (v : Z) : nat :=
  length (List.filter (fun p => (v <? Profile.score p)%Z) table).

Definition mkProfile (i : string) (sc : Z) : Profile.t :=
  {| Profile.id := i; Profile.username := Some i;
     Profile.avatar_url := None; Profile.score := sc |}.

(** A table to evaluate the rank on: two profiles tie at 300. *)
Definition sampleTable : list Profile.t :=
  [ mkProfile "ann" 900; mkProfile "bob" 300; mkProfile "cat" 300;
    mkProfile "dan" 100 ].

Definition sampleTop : TopResponse :=
  {| data := Some [mkProfile "ann" 900]; error := None |}.

Definition mounted (u : string) (sc : Z) : State :=
  {| leaderboard := []; userRank := None; loading := true;
     fetchError := None; user := Some {| User.id := u |};
     profile := Some (mkProfile u sc) |}.

End Leaderboard.

(* ================================================================== *)
(** ** [components/Dashboard.tsx]: [processSuggestions] *)

Module Dashboard.

(** [TestResult] of [types.ts]; the numeric fields are JavaScript
    numbers, i.e. binary64 floats. *)
Module TestResult.
Record t := {
  id : string;
  created_at : string;
  topic : string;
  score : float;
  total_questions : float;
  user_id : string
}.
End TestResult.
Import TestResult.

Record Perf := { correct : float; total : float }.

Record Suggestion := { name : string; key : string }.

(** The body of the [forEach]: create the entry when the lookup is
    falsy, then add to it.  For a topic named like a property of
    [Object.prototype] the lookup finds the inherited value, no own entry
    is created and the additions land on that shared built-in. *)
Definition addResult (topicPerformance : list (string * Perf)) (r : t)
  : list (string * Perf) :=
  if JS.inherited (topic r) then topicPerformance
  else
    let created :=
      if JS.hasOwn topicPerformance (topic r) then topicPerformance
      else topicPerformance
           ++ [(topic r, {| correct := 0%float; total := 0%float |})] in
    JS.updateOwn created (topic r)
      (fun p => {| correct := (correct p + score r)%float;
                   total := (total p + total_questions r)%float |}).

Definition topicPerformance (results : list t) : list (string * Perf) :=
  fold_left addResult results [].

Definition accuracy (p : Perf) : float :=
  ((correct p / total p) * 100)%float.

(** The body of the [for ... in]; the pair is
    [(worstTopic, lowestAccuracy)]. *)
Definition visit (perf : list (string * Perf))
    (st : option string * float) (topic : string)
  : option string * float :=
  match JS.getOwn perf topic with
  | Some p =>
      if (accuracy p <? snd st)%float then (Some topic, accuracy p)
      else st
  | None => st
  end.

Definition worst (perf : list (string * Perf)) : option string * float :=
  fold_left (visit perf) (JS.forInOrder (map fst perf)) (None, 101%float).

Section Suggestions.
(** [w.toLowerCase().replace(/\s+/g, '-')], a run-time built-in. *)
Variable slug : string -> string.

(** The new value of the [suggestedTopic] state cell, [prev] being its
    value before the call. *)
Definition processSuggestions (results : list t)
    (prev : option Suggestion) : option Suggestion :=
  if length results =? 0 then
    Some {| name := "Let's get started!"; key := "" |}
  else
    match fst (worst (topicPerformance results)) with
    | Some worstTopic =>
        if String.eqb worstTopic "" then prev
        else Some {| name := worstTopic; key := slug worstTopic |}
    | None => prev
    end.
End Suggestions.

(** *** The quantities the suggestion is described with *)

(** Sum of [score] over the results of [topic], added in list order. *)
Definition sumScore (results : list t) (tp : string) : float :=
  fold_left
    (fun a r => if String.eqb (topic r) tp then (a + score r)%float else a)
    results 0%float.

Definition sumTotal (results : list t) (tp : string) : float :=
  fold_left
    (fun a r =>
       if String.eqb (topic r) tp then (a + total_questions r)%float
       else a)
    results 0%float.

Definition aggregateAccuracy (results : list t) (tp : string) : float :=
  ((sumScore results tp / sumTotal results tp) * 100)%float.

(** Topics in order of first appearance. *)
Fixpoint firstSeen (seen : list string) (l : list string) : list string :=
  match l with
  | [] => []
  | k :: r =>
      if existsb (String.eqb k) seen then firstSeen seen r
      else k :: firstSeen (k :: seen) r
  end.

Definition topicsOf (results : list t) : list string :=
  firstSeen [] (map topic results).

(** An ordinary topic name: not empty, not an array index, not a
    property of [Object.prototype]. *)
Definition ordinary (k : string) : bool :=
  negb (String.eqb k "")
  && negb (JS.inherited k)
  && match JS.arrayIndex k with Some _ => false | None => true end.

(** *** [toLowerCase] and [replace(/\s+/g, '-')] on ASCII text *)

Definition toLowerAscii (c : ascii) : ascii :=
  let n := nat_of_ascii c in
  if (65 <=? n) && (n <=? 90) then ascii_of_nat (n + 32) else c.

Definition isSpaceAscii (c : ascii) : bool :=
  existsb (Nat.eqb (nat_of_ascii c)) [9; 10; 11; 12; 13; 32].

(** [inRun] tells that the previous character was white space, already
    replaced. *)
Fixpoint dashSpaces (inRun : bool) (s : string) : string :=
  match s with
  | EmptyString => EmptyString
  | String c r =>
      if isSpaceAscii c then
        if inRun then dashSpaces true r
        else String "-" (dashSpaces true r)
      else String c (dashSpaces false r)
  end.

Fixpoint lowerAll (s : string) : string :=
  match s with
  | EmptyString => EmptyString
  | String c r => String (toLowerAscii c) (lowerAll r)
  end.

Definition asciiSlug (w : string) : string := dashSpaces false (lowerAll w).

(** *** A week of results to evaluate the suggestion on *)

Definition result (tp : string) (sc n : float) : t :=
  {| id := ""; created_at := "2025-01-01T00:00:00Z"; topic := tp;
     score := sc; total_questions := n; user_id := "alice" |}.

Definition sampleWeek : list t :=
  [ result "Verbal Ability" 3 5;
    result "Logical Reasoning" 1 5;
    result "Verbal Ability" 0 5;
    result "Quantitative Aptitude" 2 10 ].

(** *** The order of binary64 numbers, through a key

    Numbers that are not NaN are ordered like their keys, compared
    lexicographically: the class (minus infinity, negative, zero,
    positive, plus infinity), then exponent and mantissa, negated for
    negative numbers. *)
Definition orderKey (f : spec_float) : option (Z * Z * Z) :=
  match f with
  | S754_nan => None
  | S754_infinity true => Some (0, 0, 0)%Z
  | S754_infinity false => Some (4, 0, 0)%Z
  | S754_zero _ => Some (2, 0, 0)%Z
  | S754_finite true m e => Some (1, - e, Z.neg m)%Z
  | S754_finite false m e => Some (3, e, Z.pos m)%Z
  end.

Definition keyLt (a b : option (Z * Z * Z)) : Prop :=
  match a, b with
  | Some (c1, e1, m1), Some (c2, e2, m2) =>
      (c1 < c2 \/ (c1 = c2 /\ (e1 < e2 \/ (e1 = e2 /\ m1 < m2))))%Z
  | _, _ => False
  end.

Definition keyEq (a b : option (Z * Z * Z)) : Prop :=
  match a, b with
  | Some x, Some y => x = y
  | _, _ => False
  end.

(** *** The outcome of the search *)

(** Accuracy of the entry of [k], NaN without an entry. *)
Definition accuracyIn (perf : list (string * Perf)) (k : string) : float :=
  match JS.getOwn perf k with
  | Some p => accuracy p
  | None => nan
  end.

(** [t] is the first of [ks] with the least value of [A], that value
    being below 101: no key is strictly below it, and no key before it
    equals it. *)
Definition firstMinimum (A : string -> float) (ks : list string)
    (t : string) : Prop :=
  exists pre post,
    ks = pre ++ t :: post
    /\ (A t <? 101)%float = true
    /\ (forall u, In u ks -> (A u <? A t)%float = false)
    /\ (forall u, In u pre -> (A u =? A t)%float = false).

End Dashboard.

(* ================================================================== *)
(** ** [components/Practice.tsx]: the page as the user drives it *)

Module PracticeUI.
Import Types Practice.






(** Answering every question with its correct answer and moving on. *)
Definition perfectRun (qs : list Question.t) : list Action :=
  flat_map (fun q => [Answer (Question.correctAnswer q); Next]) qs.

Definition isInsert (e : Event) : bool :=
  match e with Insert _ _ _ _ _ => true | _ => false end.

Definition isRpc (e : Event) : bool :=
  match e with Rpc _ _ => true | _ => false end.

(** [prev ? {...prev, score: prev.score + n} : null] *)
Definition addPoints (n : nat) (prev : option Profile.t)
  : option Profile.t :=
  match prev with
  | Some p =>
      Some {| Profile.id := Profile.id p;
              Profile.username := Profile.username p;
              Profile.avatar_url := Profile.avatar_url p;
              Profile.score := (Profile.score p + Z.of_nat n)%Z |}
  | None => None
  end.

(** The state a test starts in: nothing of an earlier session is left but
    the route parameter and the auth context. *)
Definition freshSession (fetched : list Question.t) (s : State) : State :=
  {| testState := InProgress; questions := fetched;
     currentQuestionIndex := 0;
     answers := JS.filled_null (length fetched);
     showExplanation := false; timeLeft := 300; saveError := None;
     topicKey := topicKey s; user := user s; profile := profile s |}.

End PracticeUI.

(* ================================================================== *)
(** ** [components/Dashboard.tsx]: [processWeeklyData] *)

Module Weekly.
Import Dashboard.TestResult.

Definition days : list string :=
  ["Sun"; "Mon"; "Tue"; "Wed"; "Thu"; "Fri"; "Sat"].

(** [days[i]] used as a property name, for [i] the result of [getDay()]:
    [None] stands for NaN (an invalid date).  A missing element is
    [undefined], whose property name is the string "undefined". *)
Definition dayName (i : option nat) : string :=
  match i with
  | Some n => nth n days "undefined"
  | None => "undefined"
  end.

Module WeeklyProgress.
Record t := { name : string; score : float }.
End WeeklyProgress.

(** [o[k] = v] on an object used as a map. *)
Definition setProp (o : list (string * float)) (k : string) (v : float)
  : list (string * float) :=
  if JS.hasOwn o k then JS.updateOwn o k (fun _ => v) else o ++ [(k, v)].

(** [o[k] += v]: a missing property reads as [undefined], and
    [undefined + v] is NaN. *)
Definition addProp (o : list (string * float)) (k : string) (v : float)
  : list (string * float) :=
  match JS.getOwn o k with
  | Some _ => JS.updateOwn o k (fun x => (x + v)%float)
  | None => o ++ [(k, nan)]
  end.

(** [l.indexOf(k)], -1 when absent; [i] is the index of the head. *)
Fixpoint indexFrom (i : Z) (l : list string) (k : string) : Z :=
  match l with
  | [] => (-1)%Z
  | x :: r => if String.eqb x k then i else indexFrom (i + 1)%Z r k
  end.

Definition indexOf (l : list string) (k : string) : Z := indexFrom 0 l k.

(** [l.sort((a, b) => rank(a) - rank(b))].  The sort is stable: an
    element stays ahead of the later elements of equal rank. *)
Section Sort.
Context {A : Type}.
Variable rank : A -> Z.

Fixpoint insertSorted (x : A) (l : list A) : list A :=
  match l with
  | [] => [x]
  | y :: r =>
      if (rank x <=? rank y)%Z then x :: l else y :: insertSorted x r
  end.

Fixpoint sortBy (l : list A) : list A :=
  match l with
  | [] => []
  | x :: r => insertSorted x (sortBy r)
  end.
End Sort.

Section Clock.
(** [new Date().getDay()], taken to be the same throughout one call. *)
Variable today : nat.
(** [new Date(created_at).getDay()], [None] for an invalid date. *)
Variable getDay : string -> option nat.

(** The week day [i] days before today, [i] from 0 to 6. *)
Definition dayAgo (i : nat) : nat := (today + 7 - i) mod 7.

(** The [for] loop that zeroes the last seven days. *)
Definition initScores : list (string * float) :=
  fold_left (fun o i => setProp o (dayName (Some (dayAgo i))) 0%float)
            (seq 0 7) [].

(** The body of the [forEach] over the results. *)
Definition addDay (o : list (string * float)) (r : t)
  : list (string * float) :=
  addProp o (dayName (getDay (created_at r))) (score r * 100)%float.

Definition dailyScores (results : list t) : list (string * float) :=
  fold_left addDay results initScores.

Definition orderedDays : list string :=
  skipn (today + 1) days ++ firstn (today + 1) days.

Definition processWeeklyData (results : list t)
  : list WeeklyProgress.t :=
  let o := dailyScores results in
  let chartData :=
    rev (map (fun day =>
                {| WeeklyProgress.name := day;
                   WeeklyProgress.score :=
                            match JS.getOwn o day with
                            | Some v => v
                            | None => nan
                            end |})
             (JS.forInOrder (map fst o))) in
  sortBy (fun e => indexOf orderedDays (WeeklyProgress.name e)) chartData.

(** Points of the results that fall on the week day named [k], added in
    list order. *)
Definition dayTotal (results : list t) (k : string) : float :=
  fold_left
    (fun a r =>
       if String.eqb (dayName (getDay (created_at r))) k
       then (a + score r * 100)%float else a)
    results 0%float.

End Clock.

(** A Wednesday, with dates written as their week day. *)
Definition sampleGetDay (d : string) : option nat :=
  if String.eqb d "mon" then Some 1
  else if String.eqb d "wed" then Some 3
  else if String.eqb d "sat" then Some 6
  else None.

Definition on (d : string) (sc : float) : t :=
  {| id := ""; created_at := d; topic := "Verbal Ability"; score := sc;
     total_questions := 5; user_id := "alice" |}.

End Weekly.

(* ================================================================== *)
(** ** [contexts/AppContexts.tsx] and the route guard of [App.tsx] *)

Module AppContexts.
Import Types.

(** The backend's user object as the provider reads it. *)
Module AuthUser.
Record t := { id : string; email : option string }.
End AuthUser.

(** A session; only [session.user] is read. *)
Record Session := { sessionUser : AuthUser.t }.

(** An error object of the backend client. *)
Record ApiError := { code : string; message : string }.

(** Answer of a [.single()] query. *)
Record Single := { data : option Profile.t; error : option ApiError }.

Record Backend := {
  selectProfile : string (* id *) -> Single;
  insertProfile :
    string (* id *) -> option string (* username *) -> Z (* score *) ->
    Single
}.

Inductive Event :=
| CreateProfile (id : string) (username : option string) (score : Z)
| ConsoleError (what : string).

Record State := {
  session : option Session;
  user : option AuthUser.t;
  profile : option Profile.t;
  loading : bool;
  isPasswordRecovery : bool
}.

(** State of the provider on mount. *)
Definition mountState : State :=
  {| session := None; user := None; profile := None; loading := true;
     isPasswordRecovery := false |}.

(** [s.split('@')[0]]: the part before the first [@], all of [s] when
    there is none. *)
Fixpoint beforeAt (s : string) : string :=
  match s with
  | EmptyString => EmptyString
  | String c r => if Ascii.eqb c "@" then EmptyString else String c (beforeAt r)
  end.

Definition handleAuthChange (B : Backend) (event : string)
    (sess : option Session) (s : State) : State * list Event :=
  let recovery :=
    if String.eqb event "PASSWORD_RECOVERY" then true
    else isPasswordRecovery s in
  let currentUser := option_map sessionUser sess in
  let finish (p : option Profile.t) (ev : list Event) :=
    ({| session := sess; user := currentUser; profile := p;
        loading := false; isPasswordRecovery := recovery |}, ev) in
  match currentUser with
  | Some cu =>
      let r := selectProfile B (AuthUser.id cu) in
      match error r with
      | Some e =>
          if String.eqb (code e) "PGRST116" then
            let username := option_map beforeAt (AuthUser.email cu) in
            let created := [CreateProfile (AuthUser.id cu) username 0] in
            let r2 := insertProfile B (AuthUser.id cu) username 0 in
            match error r2 with
            | Some _ =>
                finish (profile s)
                       (created ++ [ConsoleError "Error creating profile:"])
            | None => finish (data r2) created
            end
          else
            match data r with
            | Some p => finish (Some p) []
            | None =>
                finish (profile s) [ConsoleError "Error fetching profile:"]
            end
      | None =>
          match data r with
          | Some p => finish (Some p) []
          | None => finish (profile s) []
          end
      end
  | None => finish None []
  end.

Fixpoint authChanges (B : Backend)
    (l : list (string * option Session)) (s : State) : State :=
  match l with
  | [] => s
  | (event, sess) :: r =>
      authChanges B r (fst (handleAuthChange B event sess s))
  end.

(** [signOut] as far as the provider's own state goes. *)
Definition signOut (s : State) : State :=
  {| session := session s; user := user s; profile := profile s;
     loading := loading s; isPasswordRecovery := false |}.

(** What [ProtectedRoute] draws. *)
Inductive Guarded := Spinner | RedirectToAuth | Children.

Definition protectedRoute (s : State) : Guarded :=
  if loading s then Spinner
  else match session s with
       | None => RedirectToAuth
       | Some _ => Children
       end.

(** *** Theme *)

(** The theme cell and the [theme] entry of [localStorage].  The stored
    value is read back unchecked, so a theme is any string. *)
Record ThemeState := { theme : string; stored : option string }.

(** The initializer of the theme cell, in a browser. *)
Definition initialTheme (saved : option string) (prefersDark : bool)
  : string :=
  if JS.truthy saved
  then match saved with Some t => t | None => "" end
  else if prefersDark then "dark" else "light".

Definition toggleTheme (s : ThemeState) : ThemeState :=
  let newTheme := if String.eqb (theme s) "light" then "dark" else "light" in
  {| theme := newTheme; stored := Some newTheme |}.

(** The effect of [MainApp]: whether the root element carries the [dark]
    class afterwards. *)
Definition darkClass (s : ThemeState) : bool := String.eqb (theme s) "dark".

Definition bob : AuthUser.t :=
  {| AuthUser.id := "bob"; AuthUser.email := Some "bob@example.org" |}.

(** A backend that knows no profile and creates the one asked for. *)
Definition emptyBackend : Backend :=
  {| selectProfile :=
       fun _ => {| data := None;
                   error := Some {| code := "PGRST116";
                                    message := "no rows" |} |};
     insertProfile :=
       fun i n z =>
         {| data := Some {| Profile.id := i; Profile.username := n;
                            Profile.avatar_url := None;
                            Profile.score := z |};
            error := None |} |}.

End AppContexts.

(* ================================================================== *)
(** ** [components/Practice.tsx]: a handler and the render that built it *)

Module PracticeClosure.
Import Types Practice.

(** [handleCompletion] is re-created by every render and closes over that
    render's values of the state cells.  Called later, it still reads the
    captured [testState], [answers], [questions], topic and [user], while
    its [set...] calls write the cells as they are then ([current]); only
    [setProfile] receives the latest profile, through its updater. *)
Definition handleCompletionFrom (B : Backend) (captured current : State)
  : State * list Event :=
  if TestState_eqb (testState captured) Completed then (current, [])
  else
    let s1 := setTestState Completed current in
    let score := computeScore captured in
    let s2 := setSaveError None s1 in
    match selectedTopic captured, user captured with
    | Some t, Some u =>
        let total := length (questions captured) in
        match insertTestResult B (User.id u) (name t) score total with
        | Some e =>
            (setSaveError (Some e) s2,
             [Insert (User.id u) (name t) score total (Some e);
              ConsoleError e])
        | None =>
            let pointsEarned := score * 100 in
            if 0 <? pointsEarned then
              match incrementUserScore B pointsEarned with
              | Some e =>
                  (setSaveError (Some e) s2,
                   [Insert (User.id u) (name t) score total None;
                    Rpc pointsEarned (Some e);
                    ConsoleError e])
              | None =>
                  (setProfile
                     (fun prev =>
                        match prev with
                        | Some p =>
                            Some {| Profile.id := Profile.id p;
                                    Profile.username := Profile.username p;
                                    Profile.avatar_url :=
                                      Profile.avatar_url p;
                                    Profile.score :=
                                      (Profile.score p
                                       + Z.of_nat pointsEarned)%Z |}
                        | None => None
                        end) s2,
                   [Insert (User.id u) (name t) score total None;
                    Rpc pointsEarned None])
              end
            else
              (s2, [Insert (User.id u) (name t) score total None])
        end
    | _, _ => (s2, [])
    end.

(** Two calls of the handler of one render with no render in between:
    the timer effect at clock zero and the click on "Finish Test", or the
    same click handler invoked twice. *)
Definition completedTwice (B : Backend) (rendered : State)
  : State * list Event :=
  let '(s1, e1) := handleCompletionFrom B rendered rendered in
  let '(s2, e2) := handleCompletionFrom B rendered s1 in
  (s2, e1 ++ e2).

(** The render that draws "Finish Test" with the clock at zero: Alice has
    answered both questions correctly and the last timeout has fired. *)
Definition lastRender : State :=
  setTimeLeft 0
    (fst (run healthy [Answer "4"; Next; Answer "9"] (started healthy))).

End PracticeClosure.

(* ================================================================== *)
(** * Properties *)

(** ** JavaScript helpers *)

Module JSFacts.
Import JS.

Lemma spread_length (a : list slot) : length (spread a) = length a.
Proof. unfold spread. apply length_map. Qed.

Lemma replace_at_length (a : list slot) (i : nat) (v : slot) :
  length (replace_at a i v) = length a.
Proof.
  revert i. induction a as [|c r IH]; intros [|j]; simpl; auto.
Qed.

Lemma replace_at_same (a : list slot) (i : nat) (v : slot) :
  i < length a -> nth_error (replace_at a i v) i = Some v.
Proof.
  revert i. induction a as [|c r IH]; intros [|j] H; simpl in *;
    try lia; auto.
  apply IH. lia.
Qed.

Lemma replace_at_other (a : list slot) (i j : nat) (v : slot) :
  i <> j -> nth_error (replace_at a i v) j = nth_error a j.
Proof.
  revert i j. induction a as [|c r IH]; intros [|i] [|j] H; simpl;
    auto; try congruence.
Qed.

Lemma assign_length (a : list slot) (i : nat) (v : slot) :
  length (assign a i v) = Nat.max (length a) (i + 1).
Proof.
  unfold assign. destruct (i <? length a) eqn:E.
  - apply Nat.ltb_lt in E. rewrite replace_at_length. lia.
  - apply Nat.ltb_ge in E.
    rewrite !length_app, repeat_length. simpl. lia.
Qed.

Lemma assign_same (a : list slot) (i : nat) (v : slot) :
  nth_error (assign a i v) i = Some v.
Proof.
  unfold assign. destruct (i <? length a) eqn:E.
  - apply Nat.ltb_lt in E. now apply replace_at_same.
  - apply Nat.ltb_ge in E.
    rewrite nth_error_app2 by lia.
    rewrite nth_error_app2 by (rewrite repeat_length; lia).
    rewrite repeat_length.
    replace (i - length a - (i - length a)) with 0 by lia.
    reflexivity.
Qed.

Lemma assign_other (a : list slot) (i j : nat) (v : slot) :
  i <> j -> j < length a -> nth_error (assign a i v) j = nth_error a j.
Proof.
  intros Hij Hj. unfold assign. destruct (i <? length a) eqn:E.
  - now apply replace_at_other.
  - now rewrite nth_error_app1.
Qed.

(** A callback that never throws makes the two filters agree. *)
Lemma filter_exn_from_total (p : slot -> nat -> option bool)
    (q : slot -> nat -> bool) (a : list slot) (i : nat) :
  (forall k c, nth_error a k = Some c -> c <> Hole ->
               p c (i + k) = Some (q c (i + k))) ->
  filter_exn_from p i a = Some (filter_from q i a).
Proof.
  revert i. induction a as [|c r IH]; intros i H; simpl; auto.
  assert (Hr : filter_exn_from p (S i) r = Some (filter_from q (S i) r)).
  { apply IH. intros k d Hk Hd.
    replace (S i + k) with (i + S k) by lia. now apply H. }
  pose proof (H 0 c eq_refl) as H0. rewrite Nat.add_0_r in H0.
  destruct c; auto;
    rewrite Hr, H0 by discriminate; now destruct (q _ i).
Qed.

End JSFacts.

(** ** The practice session *)

Module PracticeFacts.
Import Types JS JSFacts Practice.

(** *** Score computation *)

Lemma answeredCorrectly_app (qs : list Question.t) (pre : list slot)
    (c : slot) (r : list slot) :
  answeredCorrectly qs (pre ++ c :: r) (length pre)
  = correctAt qs c (length pre).
Proof.
  unfold answeredCorrectly, correctAt.
  rewrite nth_error_app2, Nat.sub_diag by lia. simpl.
  destruct (nth_error qs (length pre)); auto.
Qed.

Lemma correctAt_Hole (qs : list Question.t) (i : nat) :
  correctAt qs Hole i = false.
Proof. unfold correctAt. now destruct (nth_error qs i). Qed.

Lemma filter_from_counts (qs : list Question.t) (r pre : list slot) :
  length (filter_from (correctAt qs) (length pre) r)
  = length (List.filter (answeredCorrectly qs (pre ++ r))
                        (seq (length pre) (length r))).
Proof.
  revert pre. induction r as [|c r IH]; intros pre; auto.
  cbn [length seq List.filter].
  rewrite answeredCorrectly_app.
  assert (Hr : length (filter_from (correctAt qs) (S (length pre)) r)
               = length (List.filter (answeredCorrectly qs (pre ++ c :: r))
                           (seq (S (length pre)) (length r)))).
  { specialize (IH (pre ++ [c])).
    rewrite length_app, <- app_assoc in IH. simpl in IH.
    now rewrite Nat.add_1_r in IH. }
  destruct c; cbn [filter_from];
    try (rewrite correctAt_Hole; exact Hr);
    match goal with
    | |- context [correctAt qs ?c ?i] => destruct (correctAt qs c i)
    end; cbn [length]; now rewrite Hr.
Qed.

Lemma computeScore_counts (s : State) :
  computeScore s = length (matchingIndices (questions s) (answers s)).
Proof.
  unfold computeScore, matchingIndices, JS.filter.
  exact (filter_from_counts (questions s) (answers s) []).
Qed.

Lemma unanswered_not_matching (qs : list Question.t) (ans : list slot)
    (i : nat) (c : slot) :
  nth_error ans i = Some c -> (forall x, c <> Str x) ->
  ~ In i (matchingIndices qs ans).
Proof.
  intros Hc Hn Hin. unfold matchingIndices in Hin.
  apply filter_In in Hin. destruct Hin as [_ Hin].
  unfold answeredCorrectly in Hin. rewrite Hc in Hin.
  destruct (nth_error qs i); try discriminate.
  destruct c; try discriminate. now apply (Hn s).
Qed.

(** *** What [handleCompletion] leaves alone *)

Lemma handleCompletion_frame (B : Backend) (s : State) :
  let s' := fst (handleCompletion B s) in
  testState s' = Completed
  /\ questions s' = questions s
  /\ answers s' = answers s
  /\ currentQuestionIndex s' = currentQuestionIndex s
  /\ showExplanation s' = showExplanation s
  /\ timeLeft s' = timeLeft s
  /\ topicKey s' = topicKey s
  /\ user s' = user s.
Proof.
  unfold handleCompletion.
  destruct (TestState_eqb (testState s) Completed) eqn:E.
  - cbn. destruct (testState s); try discriminate. repeat split.
  - destruct (selectedTopic s) as [t|], (user s) as [u|] eqn:Eu;
      try (destruct (insertTestResult B _ _ _ _));
      try (destruct (0 <? _));
      try (destruct (incrementUserScore B _));
      cbn; repeat split; auto.
Qed.

Lemma handleCompletion_Completed (B : Backend) (s : State) :
  testState s = Completed -> handleCompletion B s = (s, []).
Proof. intros H. unfold handleCompletion. now rewrite H. Qed.

Lemma computeScore_ext (s s' : State) :
  questions s' = questions s -> answers s' = answers s ->
  computeScore s' = computeScore s.
Proof. intros Hq Ha. unfold computeScore. now rewrite Hq, Ha. Qed.

(** Every call the handler issues carries the score of the state it was
    called in. *)
Lemma handleCompletion_events (B : Backend) (s : State) :
  let ev := snd (handleCompletion B s) in
  ev = []
  \/ (exists u t e,
        ev = [Insert u t (computeScore s) (length (questions s)) (Some e);
              ConsoleError e])
  \/ (exists u t,
        computeScore s = 0
        /\ ev = [Insert u t (computeScore s) (length (questions s)) None])
  \/ (exists u t r,
        0 < computeScore s
        /\ ev = Insert u t (computeScore s) (length (questions s)) None
                :: Rpc (computeScore s * 100) r
                :: match r with Some e => [ConsoleError e] | None => [] end).
Proof.
  unfold handleCompletion.
  destruct (TestState_eqb (testState s) Completed); [now left|].
  destruct (selectedTopic s) as [t|]; [|now left].
  destruct (user s) as [u|]; [|now left].
  destruct (insertTestResult B _ _ _ _) as [e|] eqn:Ei.
  { right; left. now exists (User.id u), (name t), e. }
  destruct (0 <? computeScore s * 100) eqn:Ep.
  - apply Nat.ltb_lt in Ep.
    right; right; right.
    exists (User.id u), (name t), (incrementUserScore B (computeScore s * 100)).
    split; [lia|].
    now destruct (incrementUserScore B _).
  - apply Nat.ltb_ge in Ep.
    right; right; left. exists (User.id u), (name t). split; [lia|auto].
Qed.

(** C1. At completion the computed score is the number of indices [i]
    at which [answers[i]] equals [questions[i].correctAnswer]; it is the
    score sent with the result record; and a position holding [null]
    (or nothing at all) is never among the counted indices, whatever the
    correct answer is, the empty string included. *)
Theorem C1_score_counts_matching_answers (B : Backend) (s : State) :
  computeScore s = length (matchingIndices (questions s) (answers s))
  /\ (forall u t sc n e,
        In (Insert u t sc n e) (snd (handleCompletion B s)) ->
        sc = length (matchingIndices (questions s) (answers s)))
  /\ (forall i c,
        nth_error (answers s) i = Some c -> (forall x, c <> Str x) ->
        ~ In i (matchingIndices (questions s) (answers s)))
  /\ (forall i,
        nth_error (answers s) i = Some Null ->
        ~ In i (matchingIndices (questions s) (answers s))).
Proof.
  split; [apply computeScore_counts|].
  split.
  - intros u t sc n e Hin. rewrite <- computeScore_counts.
    destruct (handleCompletion_events B s)
      as [H|[(u'&t'&e'&H)|[(u'&t'&_&H)|(u'&t'&r&_&H)]]];
      rewrite H in Hin; simpl in Hin.
    + contradiction.
    + destruct Hin as [Hin|[Hin|[]]]; now inversion Hin.
    + destruct Hin as [Hin|[]]; now inversion Hin.
    + destruct Hin as [Hin|[Hin|Hin]]; try now inversion Hin.
      destruct r; simpl in Hin;
        [destruct Hin as [Hin|[]]; inversion Hin | contradiction].
  - split.
    + intros i c. apply unanswered_not_matching.
    + intros i Hi. apply (unanswered_not_matching _ _ _ _ Hi).
      discriminate.
Qed.

(** The empty string as correct answer against an unanswered question
    and against the empty answer. *)
Example score_null_against_empty_answer :
  let q := {| Question.question := "q"; Question.options := [];
              Question.correctAnswer := ""; Question.explanation := "" |} in
  let s := setQuestions [q; q] (initial None None None) in
  computeScore (setAnswers [Null; Null] s) = 0
  /\ computeScore (setAnswers [Null; Str ""] s) = 1.
Proof. split; reflexivity. Qed.

(** *** Answering *)

Lemma selectedTopic_truthy (s : State) (t : Topic) :
  selectedTopic s = Some t -> JS.truthy (topicKey s) = true.
Proof.
  unfold selectedTopic. destruct (topicKey s) as [k|]; [|discriminate].
  intros H. apply find_some in H. destruct H as [Hin Hk].
  apply String.eqb_eq in Hk. subst k.
  simpl in Hin.
  destruct Hin as [<-|[<-|[<-|[<-|[<-|[]]]]]]; reflexivity.
Qed.

Lemma render_offers_only_in_progress (s : State) (v : View) (o : string) :
  render s = Some v -> offersAnswer v o = true ->
  testState s = InProgress /\ showExplanation s = false.
Proof.
  unfold render. intros Hr Ho.
  destruct (negb (truthy (topicKey s)) || _);
    [inversion Hr; subst; discriminate|].
  destruct (testState s) eqn:E; cbn [TestState_eqb andb] in Hr.
  - inversion Hr; subst; discriminate.
  - inversion Hr; subst; discriminate.
  - destruct (0 <? length (questions s));
      [|inversion Hr; subst; discriminate].
    destruct (nth_error (questions s) (currentQuestionIndex s));
      [|discriminate].
    inversion Hr; subst. simpl in Ho.
    split; auto. now destruct (showExplanation s).
  - destruct (viewScore s); [|discriminate].
    inversion Hr; subst; discriminate.
Qed.

(** C3 as stated fails.  Alice answers the first of two questions, moves
    on and lets the clock run out; in the resulting [Completed] state
    [handleAnswer] still records an answer for the second question and
    shows the explanation: the state is not left unchanged. *)
Lemma C3_counterexample_answer_after_completion :
  let s := fst (run healthy (Answer "4" :: Next :: repeat Tick 300)
                  (started healthy)) in
  testState s = Completed
  /\ answers s = [Str "4"; Null]
  /\ currentQuestionIndex s = 1
  /\ answers (handleAnswer "9" s) = [Str "4"; Str "9"]
  /\ showExplanation (handleAnswer "9" s) = true
  /\ handleAnswer "9" s <> s.
Proof.
  cbv zeta. repeat split; try (vm_compute; reflexivity).
  vm_compute. discriminate.
Qed.

(** C3, amended. [handleAnswer] holds no state check.  In every state it
    writes the option at [answers[currentQuestionIndex]] (the array grows
    when the index is past its end), shows the explanation, and leaves
    the test state, the questions, the cursor, the clock and the save
    error as they were; the other positions keep the value of the spread
    copy.  What keeps it from running outside a test is the view: an
    enabled answer button is rendered only when the state is
    [InProgress] and the explanation is hidden. *)
Theorem C3_answer_writes_in_every_state (o : string) (s : State) :
  let s' := handleAnswer o s in
  testState s' = testState s
  /\ questions s' = questions s
  /\ currentQuestionIndex s' = currentQuestionIndex s
  /\ timeLeft s' = timeLeft s
  /\ saveError s' = saveError s
  /\ showExplanation s' = true
  /\ nth_error (answers s') (currentQuestionIndex s) = Some (Str o)
  /\ length (answers s')
     = Nat.max (length (answers s)) (currentQuestionIndex s + 1)
  /\ (forall j, j <> currentQuestionIndex s -> j < length (answers s) ->
                nth_error (answers s') j = nth_error (spread (answers s)) j)
  /\ (forall v, render s = Some v -> offersAnswer v o = true ->
                testState s = InProgress /\ showExplanation s = false).
Proof.
  cbv zeta. unfold handleAnswer. cbn.
  repeat split; auto.
  - apply assign_same.
  - rewrite assign_length, spread_length. reflexivity.
  - intros j Hj Hl. apply assign_other; auto.
    now rewrite spread_length.
  - eapply render_offers_only_in_progress; eauto.
  - eapply render_offers_only_in_progress; eauto.
Qed.

(** *** The completed view *)

Lemma viewScore_in_session (s : State) :
  length (answers s) <= length (questions s) ->
  viewScore s = Some (computeScore s).
Proof.
  intros Hl. unfold viewScore, computeScore, filter_exn, JS.filter.
  rewrite (filter_exn_from_total _ (correctAt (questions s))); auto.
  intros k c Hk _. simpl. unfold correctAt.
  assert (Hlt : k < length (questions s)).
  { apply Nat.lt_le_trans with (length (answers s)); auto.
    apply nth_error_Some. congruence. }
  apply nth_error_Some in Hlt.
  now destruct (nth_error (questions s) k).
Qed.

Lemma selectedTopic_ext (s s' : State) :
  topicKey s' = topicKey s -> selectedTopic s' = selectedTopic s.
Proof. intros H. unfold selectedTopic. now rewrite H. Qed.

Lemma render_completed (s : State) (t : Topic) (n : nat) :
  testState s = Completed -> selectedTopic s = Some t ->
  viewScore s = Some n ->
  render s
  = Some (CompletedView n (length (questions s))
            (if truthy (saveError s)
             then SetupInstructions
                    (match saveError s with Some e => e | None => "" end)
             else XPEarned (n * 100))).
Proof.
  intros Hc Ht Hv. unfold render.
  rewrite (selectedTopic_truthy s t Ht), Ht, Hc, Hv. reflexivity.
Qed.

(** The completed view of the state [handleCompletion] leaves, for a
    session with a chosen topic. *)
Lemma render_after_completion (B : Backend) (s : State) (t : Topic) :
  selectedTopic s = Some t ->
  length (answers s) <= length (questions s) ->
  let s' := fst (handleCompletion B s) in
  render s'
  = Some (CompletedView (computeScore s) (length (questions s))
            (if truthy (saveError s')
             then SetupInstructions
                    (match saveError s' with Some e => e | None => "" end)
             else XPEarned (computeScore s * 100))).
Proof.
  intros Ht Hl.
  destruct (handleCompletion_frame B s)
    as (Hc & Hq & Ha & _ & _ & _ & Hk & _).
  cbv zeta.
  rewrite (render_completed _ t (computeScore s)); auto.
  - now rewrite Hq.
  - rewrite <- Ht. now apply selectedTopic_ext.
  - rewrite <- (computeScore_ext s _ Hq Ha).
    apply viewScore_in_session. now rewrite Hq, Ha.
Qed.

(** *** Persistence failure *)

Lemma handleCompletion_insert_fails (B : Backend) (s : State) (t : Topic)
    (u : User.t) (e : string) :
  testState s <> Completed ->
  selectedTopic s = Some t -> user s = Some u ->
  insertTestResult B (User.id u) (name t) (computeScore s)
                   (length (questions s)) = Some e ->
  handleCompletion B s
  = (setSaveError (Some e) (setSaveError None (setTestState Completed s)),
     [Insert (User.id u) (name t) (computeScore s) (length (questions s))
             (Some e);
      ConsoleError e]).
Proof.
  intros Hn Ht Hu Hi. unfold handleCompletion.
  rewrite Ht, Hu, Hi.
  destruct (testState s); try reflexivity. now elim Hn.
Qed.

(** C4 as stated fails.  Alice answers both questions correctly while the
    insert is refused: the completed view shows [2 / 2] and, in place of
    the XP line, the set-up instructions with the error; no
    [+200 XP Earned] is displayed. *)
Lemma C4_counterexample_points_hidden_on_save_error :
  let s := fst (run insertDown [Answer "4"; Next; Answer "9"; Next]
                  (started insertDown)) in
  testState s = Completed
  /\ saveError s = Some "relation test_results does not exist"
  /\ render s
     = Some (CompletedView 2 2
               (SetupInstructions "relation test_results does not exist"))
  /\ option_map (fun v => showsScore v 2) (render s) = Some true
  /\ option_map (fun v => showsXP v 200) (render s) = Some false.
Proof. cbv zeta. repeat split; vm_compute; reflexivity. Qed.

(** C4, amended.  When the insert of the result record fails during a
    session, the state still becomes [Completed], the error message is
    kept as [saveError], the only calls are the insert and the console
    report (no score increment is requested), and the completed view
    still shows the computed score out of the number of questions.  The
    points line is shown only if the error message is empty; otherwise
    the set-up instructions with the message take its place. *)
Theorem C4_insert_failure_keeps_score_hides_points (B : Backend)
    (s : State) (t : Topic) (u : User.t) (e : string) :
  testState s <> Completed ->
  selectedTopic s = Some t -> user s = Some u ->
  insertTestResult B (User.id u) (name t) (computeScore s)
                   (length (questions s)) = Some e ->
  length (answers s) <= length (questions s) ->
  let s' := fst (handleCompletion B s) in
  let ev := snd (handleCompletion B s) in
  testState s' = Completed
  /\ saveError s' = Some e
  /\ ev = [Insert (User.id u) (name t) (computeScore s)
                  (length (questions s)) (Some e);
           ConsoleError e]
  /\ (forall v r, ~ In (Rpc v r) ev)
  /\ render s'
     = Some (CompletedView (computeScore s) (length (questions s))
               (if String.eqb e "" then XPEarned (computeScore s * 100)
                else SetupInstructions e)).
Proof.
  intros Hn Ht Hu Hi Hl. cbv zeta.
  rewrite (render_after_completion B s t Ht Hl).
  rewrite (handleCompletion_insert_fails B s t u e Hn Ht Hu Hi).
  cbn. repeat split.
  - intros v r [H|[H|[]]]; discriminate.
  - now destruct (String.eqb e "").
Qed.

Lemma C4_witness :
  let s := fst (run insertDown [Answer "4"; Next; Answer "9"]
                  (started insertDown)) in
  testState (fst (handleCompletion insertDown s)) = Completed
  /\ render (fst (handleCompletion insertDown s))
     = Some (CompletedView (computeScore s) (length (questions s))
               (if String.eqb "relation test_results does not exist" ""
                then XPEarned (computeScore s * 100)
                else SetupInstructions
                       "relation test_results does not exist")).
Proof.
  cbv zeta.
  pose proof
    (C4_insert_failure_keeps_score_hides_points insertDown
       (fst (run insertDown [Answer "4"; Next; Answer "9"]
               (started insertDown)))
       {| name := "Verbal Ability";
          description := "Check your command over the English language.";
          key := "verbal-ability" |}
       alice "relation test_results does not exist") as H.
  cbv zeta in H.
  destruct H as (H1 & _ & _ & _ & H5).
  - vm_compute. discriminate.
  - vm_compute. reflexivity.
  - vm_compute. reflexivity.
  - vm_compute. reflexivity.
  - vm_compute. lia.
  - split; [exact H1 | exact H5].
Defined.

(** *** The score increment *)

(** C5. [handleCompletion] requests the score increment exactly when
    the score is positive and the insert of the result record, issued by
    the same call, succeeded; the value requested is always the score
    times one hundred. *)
Theorem C5_increment_iff_positive_and_saved (B : Backend) (s : State) :
  let ev := snd (handleCompletion B s) in
  ((exists v r, In (Rpc v r) ev)
   <-> (0 < computeScore s
        /\ exists u t n, In (Insert u t (computeScore s) n None) ev))
  /\ (forall v r, In (Rpc v r) ev -> v = computeScore s * 100).
Proof.
  cbv zeta.
  destruct (handleCompletion_events B s)
    as [H|[(u&t&e&H)|[(u&t&Hz&H)|(u&t&r&Hp&H)]]]; rewrite H; clear H.
  - split.
    + split; [intros (v&r&[])|intros (_&u&t&n&[])].
    + intros v r [].
  - split.
    + split.
      * intros (v&r&[Hin|[Hin|[]]]); discriminate.
      * intros (_&u'&t'&n&[Hin|[Hin|[]]]); discriminate.
    + intros v r [Hin|[Hin|[]]]; discriminate.
  - split.
    + split.
      * intros (v&r&[Hin|[]]); discriminate.
      * intros (Hp&_). lia.
    + intros v r [Hin|[]]; discriminate.
  - split.
    + split.
      * intros _. split; auto.
        exists u, t, (length (questions s)). now left.
      * intros _. exists (computeScore s * 100), r. right. now left.
    + intros v r' [Hin|[Hin|Hin]]; try discriminate.
      * now inversion Hin.
      * destruct r; simpl in Hin; [destruct Hin as [Hin|[]]|contradiction];
          discriminate.
Qed.

(** *** No signed-in user *)

Lemma handleCompletion_anonymous (B : Backend) (s : State) :
  user s = None -> testState s <> Completed ->
  handleCompletion B s
  = (setSaveError None (setTestState Completed s), []).
Proof.
  intros Hu Hn. unfold handleCompletion. rewrite Hu.
  destruct (testState s); try (now elim Hn);
    now destruct (selectedTopic s).
Qed.

(** C8. Without a user identity, completing a session issues no call at
    all (neither the insert nor the score increment) and records no
    error; the state becomes [Completed], and for a session on a chosen
    topic the completed view shows the computed score and the points. *)
Theorem C8_anonymous_completion_skips_persistence (B : Backend)
    (s : State) :
  user s = None -> testState s <> Completed ->
  handleCompletion B s = (setSaveError None (setTestState Completed s), [])
  /\ testState (fst (handleCompletion B s)) = Completed
  /\ saveError (fst (handleCompletion B s)) = None
  /\ (forall t, selectedTopic s = Some t ->
                length (answers s) <= length (questions s) ->
                render (fst (handleCompletion B s))
                = Some (CompletedView (computeScore s)
                          (length (questions s))
                          (XPEarned (computeScore s * 100)))).
Proof.
  intros Hu Hn.
  pose proof (handleCompletion_anonymous B s Hu Hn) as H.
  split; [exact H|].
  split; [now rewrite H|].
  split; [now rewrite H|].
  intros t Ht Hl.
  rewrite (render_after_completion B s t Ht Hl).
  now rewrite H.
Qed.

Lemma C8_witness :
  let s := fst (run healthy [Answer "4"; Next; Answer "9"]
                  (startedAnonymous healthy)) in
  snd (handleCompletion healthy s) = []
  /\ render (fst (handleCompletion healthy s))
     = Some (CompletedView 2 2 (XPEarned 200)).
Proof.
  cbv zeta.
  destruct
    (C8_anonymous_completion_skips_persistence healthy
       (fst (run healthy [Answer "4"; Next; Answer "9"]
               (startedAnonymous healthy))))
    as (H1 & _ & _ & H4).
  - vm_compute. reflexivity.
  - vm_compute. discriminate.
  - split.
    + now rewrite H1.
    + rewrite (H4 {| name := "Verbal Ability";
                     description :=
                       "Check your command over the English language.";
                     key := "verbal-ability" |}).
      * vm_compute. reflexivity.
      * vm_compute. reflexivity.
      * vm_compute. lia.
Defined.

(** *** The session invariant *)

Lemma startTest_establishes (B : Backend) (topicName : string)
    (s : State) :
  generateAptitudeQuestions B topicName 5 <> [] ->
  let s0 := fst (startTest B topicName s) in
  testState s0 = InProgress
  /\ questions s0 = generateAptitudeQuestions B topicName 5
  /\ currentQuestionIndex s0 = 0
  /\ sessionInv s0.
Proof.
  intros Hne. unfold startTest, sessionInv.
  destruct (generateAptitudeQuestions B topicName 5) as [|q r] eqn:E;
    [now elim Hne|].
  cbn. rewrite repeat_length. repeat split; lia.
Qed.

Lemma handleCompletion_inv (B : Backend) (s : State) :
  sessionInv s -> sessionInv (fst (handleCompletion B s)).
Proof.
  destruct (handleCompletion_frame B s) as (_ & Hq & Ha & Hi & _).
  unfold sessionInv. now rewrite Hq, Ha, Hi.
Qed.

Lemma handleAnswer_inv (o : string) (s : State) :
  sessionInv s -> sessionInv (handleAnswer o s).
Proof.
  unfold sessionInv, handleAnswer. cbn. intros [Hl Hi].
  rewrite assign_length, spread_length. lia.
Qed.

Lemma goToNextQuestion_cases (B : Backend) (s : State) :
  (S (currentQuestionIndex s) < length (questions s)
   /\ goToNextQuestion B s
      = (setCurrentQuestionIndex (currentQuestionIndex s + 1)
           (setShowExplanation false s), []))
  \/ (~ S (currentQuestionIndex s) < length (questions s)
      /\ goToNextQuestion B s
         = handleCompletion B (setShowExplanation false s)).
Proof.
  unfold goToNextQuestion.
  destruct (_ <? _)%Z eqn:E.
  - apply Z.ltb_lt in E. left. split; [lia|reflexivity].
  - apply Z.ltb_ge in E. right. split; [lia|reflexivity].
Qed.

Lemma goToNextQuestion_inv (B : Backend) (s : State) :
  sessionInv s -> sessionInv (fst (goToNextQuestion B s)).
Proof.
  intros H. destruct (goToNextQuestion_cases B s) as [[Hlt ->] | [_ ->]].
  - unfold sessionInv in *. cbn. lia.
  - now apply handleCompletion_inv.
Qed.

Lemma tick_cases (B : Backend) (s : State) :
  tick B s = (s, [])
  \/ tick B s = (setTimeLeft (timeLeft s - 1) s, [])
  \/ tick B s = handleCompletion B (setTimeLeft (timeLeft s - 1) s).
Proof.
  unfold tick, timerEffect. cbn.
  destruct (TestState_eqb (testState s) InProgress && (0 <? timeLeft s)%Z);
    auto.
  destruct (TestState_eqb (testState s) InProgress
            && (0 <? timeLeft s - 1)%Z); auto.
  destruct ((timeLeft s - 1 =? 0)%Z
            && TestState_eqb (testState s) InProgress); auto.
Qed.

Lemma tick_inv (B : Backend) (s : State) :
  sessionInv s -> sessionInv (fst (tick B s)).
Proof.
  intros H. destruct (tick_cases B s) as [-> | [-> | ->]]; auto.
  now apply handleCompletion_inv.
Qed.

Lemma step_inv (B : Backend) (a : Action) (s : State) :
  sessionInv s -> sessionInv (fst (step B a s)).
Proof.
  destruct a; cbn [step fst].
  - apply handleAnswer_inv.
  - apply goToNextQuestion_inv.
  - apply tick_inv.
  - apply handleCompletion_inv.
Qed.

Lemma step_monotone (B : Backend) (a : Action) (s : State) :
  currentQuestionIndex s <= currentQuestionIndex (fst (step B a s)).
Proof.
  destruct a; cbn [step fst].
  - cbn. lia.
  - destruct (goToNextQuestion_cases B s) as [[_ ->] | [_ ->]].
    + cbn. lia.
    + destruct (handleCompletion_frame B (setShowExplanation false s))
        as [_ [_ [_ [-> _]]]]. cbn. lia.
  - destruct (tick_cases B s) as [-> | [-> | ->]]; try (cbn; lia).
    destruct (handleCompletion_frame B (setTimeLeft (timeLeft s - 1) s))
      as [_ [_ [_ [-> _]]]]. cbn. lia.
  - destruct (handleCompletion_frame B s) as [_ [_ [_ [-> _]]]]. lia.
Qed.

Lemma run_cons (B : Backend) (a : Action) (l : list Action) (s : State) :
  fst (run B (a :: l) s) = fst (run B l (fst (step B a s))).
Proof.
  cbn [run]. destruct (step B a s) as [s1 e1]. cbn [fst].
  now destruct (run B l s1).
Qed.

Lemma run_app (B : Backend) (l1 l2 : list Action) (s : State) :
  fst (run B (l1 ++ l2) s) = fst (run B l2 (fst (run B l1 s))).
Proof.
  revert s. induction l1 as [|a l1 IH]; intros s; [reflexivity|].
  rewrite <- app_comm_cons, !run_cons. apply IH.
Qed.

Lemma run_inv (B : Backend) (l : list Action) (s : State) :
  sessionInv s -> sessionInv (fst (run B l s)).
Proof.
  revert s. induction l as [|a l IH]; intros s H; [exact H|].
  rewrite run_cons. apply IH. now apply step_inv.
Qed.

Lemma run_monotone (B : Backend) (l : list Action) (s : State) :
  currentQuestionIndex s <= currentQuestionIndex (fst (run B l s)).
Proof.
  revert s. induction l as [|a l IH]; intros s; [reflexivity|].
  rewrite run_cons.
  apply Nat.le_trans with (currentQuestionIndex (fst (step B a s))).
  - apply step_monotone.
  - apply IH.
Qed.

(** C6. A session that starts with a non-empty list of questions has as
    many answer positions as questions when it becomes [InProgress], and
    still has after any sequence of answers, advances, clock ticks and
    completions. *)
Theorem C6_answers_length_invariant (B : Backend) (topicName : string)
    (s : State) (l : list Action) :
  generateAptitudeQuestions B topicName 5 <> [] ->
  let s0 := fst (startTest B topicName s) in
  testState s0 = InProgress
  /\ length (answers s0) = length (questions s0)
  /\ length (answers (fst (run B l s0)))
     = length (questions (fst (run B l s0)))
  /\ (forall a s1, sessionInv s1 ->
                   length (answers (fst (step B a s1)))
                   = length (questions (fst (step B a s1)))).
Proof.
  intros Hne. cbv zeta.
  destruct (startTest_establishes B topicName s Hne) as (Ht & _ & _ & Hi).
  repeat split.
  - exact Ht.
  - apply Hi.
  - apply (run_inv B l _ Hi).
  - intros a s1 H1. apply (step_inv B a s1 H1).
Qed.

Lemma C6_witness :
  let s0 := fst (startTest healthy "Verbal Ability"
                   (initial (Some "verbal-ability") (Some alice)
                      (Some aliceProfile))) in
  let l := [Answer "4"; Tick; Answer "3"; Next; Answer "9"; Next; Tick] in
  length (answers s0) = length (questions s0)
  /\ length (answers (fst (run healthy l s0)))
     = length (questions (fst (run healthy l s0))).
Proof.
  cbv zeta.
  destruct
    (C6_answers_length_invariant healthy "Verbal Ability"
       (initial (Some "verbal-ability") (Some alice) (Some aliceProfile))
       [Answer "4"; Tick; Answer "3"; Next; Answer "9"; Next; Tick])
    as (_ & H2 & H3 & _).
  - vm_compute. discriminate.
  - split; [exact H2 | exact H3].
Defined.

(** C7. From the start of a session on, the cursor never decreases under
    answers, advances, clock ticks and completions, and it stays within
    the number of questions; advancing adds one to it exactly while a
    further question exists, and otherwise leaves it alone and runs the
    completion. *)
Theorem C7_cursor_monotone_and_bounded (B : Backend) (topicName : string)
    (s x : State) (l1 l2 : list Action) :
  generateAptitudeQuestions B topicName 5 <> [] ->
  let s0 := fst (startTest B topicName s) in
  let s1 := fst (run B l1 s0) in
  let s2 := fst (run B (l1 ++ l2) s0) in
  currentQuestionIndex s0 = 0
  /\ currentQuestionIndex s1 <= currentQuestionIndex s2
  /\ currentQuestionIndex s2 <= length (questions s2)
  /\ (forall a, currentQuestionIndex x
                <= currentQuestionIndex (fst (step B a x)))
  /\ (currentQuestionIndex x + 1 < length (questions x) ->
      goToNextQuestion B x
      = (setCurrentQuestionIndex (currentQuestionIndex x + 1)
           (setShowExplanation false x), []))
  /\ (~ currentQuestionIndex x + 1 < length (questions x) ->
      goToNextQuestion B x
      = handleCompletion B (setShowExplanation false x)
      /\ currentQuestionIndex (fst (goToNextQuestion B x))
         = currentQuestionIndex x).
Proof.
  intros Hne. cbv zeta.
  destruct (startTest_establishes B topicName s Hne) as (_ & _ & H0 & Hi).
  split; [exact H0|].
  split; [rewrite run_app; apply run_monotone|].
  split.
  { destruct (run_inv B (l1 ++ l2) _ Hi) as [_ Hlt]. lia. }
  split; [intros a; apply step_monotone|].
  destruct (goToNextQuestion_cases B x) as [[Hlt He]|[Hge He]].
  - split; [intros _; exact He | intros Hn; elim Hn; lia].
  - split; [intros Hlt; elim Hge; lia|].
    intros _. split; [exact He|]. rewrite He.
    destruct (handleCompletion_frame B (setShowExplanation false x))
      as [_ [_ [_ [-> _]]]]. reflexivity.
Qed.

Lemma C7_witness :
  let s0 := fst (startTest healthy "Verbal Ability"
                   (initial (Some "verbal-ability") (Some alice)
                      (Some aliceProfile))) in
  let l1 := [Answer "4"; Next] in
  let l2 := [Tick; Answer "9"; Next; Next] in
  currentQuestionIndex (fst (run healthy l1 s0))
  <= currentQuestionIndex (fst (run healthy (l1 ++ l2) s0))
  /\ currentQuestionIndex (fst (run healthy (l1 ++ l2) s0))
     <= length (questions (fst (run healthy (l1 ++ l2) s0))).
Proof.
  cbv zeta.
  destruct
    (C7_cursor_monotone_and_bounded healthy "Verbal Ability"
       (initial (Some "verbal-ability") (Some alice) (Some aliceProfile))
       (initial None None None)
       [Answer "4"; Next] [Tick; Answer "9"; Next; Next])
    as (_ & H2 & H3 & _).
  - vm_compute. discriminate.
  - split; [exact H2 | exact H3].
Defined.

End PracticeFacts.

(** ** The leaderboard rank *)

Module LeaderboardFacts.
Import Types Leaderboard.

Lemma fetch_userRank (B : Backend) (s : State) :
  userRank (fetchLeaderboardData B s)
  = match error (selectTop B), profile s with
    | None, Some p =>
        match rankError (countScoreGt B (Profile.score p)) with
        | None =>
            Some (orZero (count (countScoreGt B (Profile.score p))) + 1)
        | Some _ => userRank s
        end
    | _, _ => userRank s
    end.
Proof.
  unfold fetchLeaderboardData.
  destruct (error (selectTop B)); [reflexivity|].
  destruct (profile s) as [p|].
  - destruct (rankError (countScoreGt B (Profile.score p)));
      destruct (data (selectTop B)); reflexivity.
  - destruct (data (selectTop B)); reflexivity.
Qed.

Lemma ownRowRank_is_userRank (s : State) (n : nat) :
  ownRowRank s = Some n -> userRank s = Some n /\ n <> 0.
Proof.
  unfold ownRowRank.
  destruct (loading s); [discriminate|].
  destruct (JS.truthy (fetchError s)); [discriminate|].
  destruct (length (leaderboard s) =? 0); [discriminate|].
  destruct (negb (isUserInTop10 s)); [|discriminate].
  destruct (profile s); [|discriminate].
  destruct (userRank s) as [m|]; [|discriminate].
  destruct (m =? 0) eqn:E; [discriminate|].
  intros H. inversion H; subst. apply Nat.eqb_neq in E. auto.
Qed.

(** C9. When the top-ten query succeeds, the rank computed for the
    current user is one plus the number of profiles scoring strictly
    more than the user; it is never zero; two users with the same score
    get the same rank; and the rank printed in the user's own row, when
    that row is drawn, is this number. *)
Theorem C9_rank_is_one_plus_strictly_above (top : TopResponse)
    (table : list Profile.t) (s : State) (p : Profile.t) :
  error top = None -> profile s = Some p ->
  let s' := fetchLeaderboardData (hosted top table) s in
  userRank s' = Some (1 + strictlyAbove table (Profile.score p))
  /\ userRank s' <> Some 0
  /\ (forall s2 p2,
        profile s2 = Some p2 -> Profile.score p2 = Profile.score p ->
        userRank (fetchLeaderboardData (hosted top table) s2)
        = userRank s')
  /\ (forall n, ownRowRank s' = Some n ->
                n = 1 + strictlyAbove table (Profile.score p)).
Proof.
  intros He Hp. cbv zeta.
  assert (Hr : forall s0 p0, profile s0 = Some p0 ->
               userRank (fetchLeaderboardData (hosted top table) s0)
               = Some (1 + strictlyAbove table (Profile.score p0))).
  { intros s0 p0 H0. rewrite fetch_userRank. cbn. rewrite He, H0.
    unfold strictlyAbove. f_equal. lia. }
  rewrite (Hr s p Hp). repeat split.
  - discriminate.
  - intros s2 p2 H2 Heq. rewrite (Hr s2 p2 H2). now rewrite Heq.
  - intros n Hn. apply ownRowRank_is_userRank in Hn.
    destruct Hn as [Hn _]. rewrite (Hr s p Hp) in Hn. now inversion Hn.
Qed.

Lemma C9_witness :
  userRank (fetchLeaderboardData (hosted sampleTop sampleTable)
              (mounted "bob" 300)) = Some 2
  /\ userRank (fetchLeaderboardData (hosted sampleTop sampleTable)
                 (mounted "cat" 300)) = Some 2.
Proof.
  destruct
    (C9_rank_is_one_plus_strictly_above sampleTop sampleTable
       (mounted "bob" 300) (mkProfile "bob" 300))
    as (H1 & _ & H3 & _).
  - reflexivity.
  - reflexivity.
  - split.
    + exact H1.
    + rewrite (H3 (mounted "cat" 300) (mkProfile "cat" 300)
                 eq_refl eq_refl).
      exact H1.
Defined.

End LeaderboardFacts.

(** ** The dashboard suggestion *)

Module DashboardFacts.
Import JS Dashboard Dashboard.TestResult.

(** *** The order of binary64 numbers *)

Lemma SFltb_key (x y : spec_float) :
  SFltb x y = true <-> keyLt (orderKey x) (orderKey y).
Proof.
  unfold SFltb.
  destruct x as [sx|sx| |sx mx ex], y as [sy|sy| |sy my ey];
    try destruct sx; try destruct sy; cbn;
    try (split; [discriminate | lia]);
    try (split; [discriminate | tauto]);
    try (split; [lia | reflexivity]).
  - change (Pos.compare_cont Eq mx my) with (mx ?= my)%positive.
    destruct (Z.compare_spec ex ey); cbn;
      try (split; [discriminate || lia | reflexivity || lia]).
    destruct (Pos.compare_spec mx my); cbn;
      split; try discriminate; try reflexivity; lia.
  - change (Pos.compare_cont Eq mx my) with (mx ?= my)%positive.
    destruct (Z.compare_spec ex ey); cbn;
      try (split; [discriminate || lia | reflexivity || lia]).
    destruct (Pos.compare_spec mx my); cbn;
      split; try discriminate; try reflexivity; lia.
Qed.

Lemma SFeqb_key (x y : spec_float) :
  SFeqb x y = true -> keyEq (orderKey x) (orderKey y).
Proof.
  unfold SFeqb.
  destruct x as [sx|sx| |sx mx ex], y as [sy|sy| |sy my ey];
    try destruct sx; try destruct sy; cbn;
    try discriminate; try reflexivity.
  - change (Pos.compare_cont Eq mx my) with (mx ?= my)%positive.
    destruct (Z.compare_spec ex ey); cbn; try discriminate.
    destruct (Pos.compare_spec mx my); cbn; try discriminate.
    intros _. now subst.
  - change (Pos.compare_cont Eq mx my) with (mx ?= my)%positive.
    destruct (Z.compare_spec ex ey); cbn; try discriminate.
    destruct (Pos.compare_spec mx my); cbn; try discriminate.
    intros _. now subst.
Qed.

Lemma keyLt_trans (a b c : option (Z * Z * Z)) :
  keyLt a b -> keyLt b c -> keyLt a c.
Proof.
  destruct a as [[[a1 a2] a3]|], b as [[[b1 b2] b3]|],
           c as [[[c1 c2] c3]|]; cbn; try tauto.
  lia.
Qed.

Lemma keyLt_irrefl (a : option (Z * Z * Z)) : ~ keyLt a a.
Proof. destruct a as [[[a1 a2] a3]|]; cbn; lia. Qed.

Lemma keyEq_Lt (a b c : option (Z * Z * Z)) :
  keyEq a b -> keyLt b c -> keyLt a c.
Proof.
  destruct a as [a|], b as [b|]; cbn; try tauto.
  now intros ->.
Qed.

Open Scope float_scope.

Lemma ltb_trans (x y z : float) :
  (x <? y) = true -> (y <? z) = true -> (x <? z) = true.
Proof.
  rewrite !ltb_spec, !SFltb_key. apply keyLt_trans.
Qed.

Lemma ltb_irrefl (x : float) : (x <? x) = false.
Proof.
  destruct (x <? x) eqn:E; auto.
  rewrite ltb_spec, SFltb_key in E. now apply keyLt_irrefl in E.
Qed.

Lemma eqb_ltb (x y z : float) :
  (x =? y) = true -> (y <? z) = true -> (x <? z) = true.
Proof.
  rewrite eqb_spec, !ltb_spec, !SFltb_key. intros H.
  apply keyEq_Lt. now apply SFeqb_key.
Qed.

(** Nothing that is not below [z] is below something below [z]. *)
Lemma not_below_smaller (x y z : float) :
  (x <? z) = false -> (y <? z) = true -> (x <? y) = false.
Proof.
  intros Hx Hy. destruct (x <? y) eqn:E; auto.
  now rewrite (ltb_trans x y z E Hy) in Hx.
Qed.

Lemma not_equal_smaller (x y z : float) :
  (x <? z) = false -> (y <? z) = true -> (x =? y) = false.
Proof.
  intros Hx Hy. destruct (x =? y) eqn:E; auto.
  now rewrite (eqb_ltb x y z E Hy) in Hx.
Qed.

Close Scope float_scope.

(** *** The search for the worst topic *)

Section Search.
Variable perf : list (string * Perf).

Lemma visit_entry (st : option string * float) (k : string) :
  getOwn perf k <> None ->
  visit perf st k
  = if (accuracyIn perf k <? snd st)%float
    then (Some k, accuracyIn perf k) else st.
Proof.
  unfold visit, accuracyIn. destruct (getOwn perf k); auto.
  intros H. now elim H.
Qed.

Lemma search_outcome (ks : list string) :
  (forall k, In k ks -> getOwn perf k <> None) ->
  let st := fold_left (visit perf) ks (None, 101%float) in
  (fst st = None /\ snd st = 101%float
   /\ forall u, In u ks -> (accuracyIn perf u <? 101)%float = false)
  \/ (exists t, fst st = Some t /\ snd st = accuracyIn perf t
                /\ firstMinimum (accuracyIn perf) ks t).
Proof.
  induction ks as [|k ks IH] using rev_ind; intros Hk; cbv zeta.
  { left. cbn. repeat split; auto. intros u []. }
  rewrite fold_left_app. cbn [fold_left].
  assert (Hks : forall j, In j ks -> getOwn perf j <> None).
  { intros j Hj. apply Hk, in_or_app. now left. }
  specialize (IH Hks). cbv zeta in IH.
  rewrite visit_entry by (apply Hk, in_or_app; right; now left).
  destruct (fold_left (visit perf) ks (None, 101%float)) as [w low].
  cbn [fst snd] in *.
  destruct (accuracyIn perf k <? low)%float eqn:E.
  - (* [k] becomes the worst topic *)
    right. exists k. cbn [fst snd]. split; [reflexivity|].
    split; [reflexivity|].
    exists ks, []. split; [reflexivity|].
    assert (Hbelow : (accuracyIn perf k <? 101)%float = true
                     /\ forall u, In u ks ->
                          (accuracyIn perf u <? low)%float = false).
    { destruct IH as [(_ & Hlow & Hall)|(t & _ & Hlow & Hmin)].
      - subst low. split; auto.
      - subst low. destruct Hmin as (pre & post & _ & Ht & Hmin & _).
        split; auto. eapply ltb_trans; eauto. }
    destruct Hbelow as [H101 Hall].
    split; [exact H101|]. split.
    + intros u Hu. apply in_app_or in Hu. destruct Hu as [Hu|[<-|[]]].
      * eapply not_below_smaller; eauto.
      * apply ltb_irrefl.
    + intros u Hu. eapply not_equal_smaller; eauto.
  - (* the state is kept *)
    destruct IH as [(Hw & Hlow & Hall)|(t & Hw & Hlow & Hmin)].
    + left. cbn [fst snd]. repeat split; auto.
      intros u Hu. apply in_app_or in Hu. destruct Hu as [Hu|[<-|[]]].
      * now apply Hall.
      * now rewrite <- Hlow.
    + right. exists t. cbn [fst snd]. repeat split; auto.
      destruct Hmin as (pre & post & Hks' & Ht & Hmin & Hpre).
      exists pre, (post ++ [k]). split.
      { rewrite Hks', <- app_assoc. reflexivity. }
      split; [exact Ht|]. split; [|exact Hpre].
      intros u Hu. apply in_app_or in Hu. destruct Hu as [Hu|[<-|[]]].
      * now apply Hmin.
      * now rewrite <- Hlow.
Qed.
End Search.

(** *** Objects as maps *)

Section ObjFacts.
Context {V : Type}.
Implicit Types (o : list (string * V)) (k j : string).

Lemma hasOwn_keys o k :
  hasOwn o k = existsb (String.eqb k) (map fst o).
Proof.
  unfold hasOwn. induction o as [|[i v] r IH]; cbn; auto.
  rewrite (String.eqb_sym k i). now destruct (String.eqb i k).
Qed.

Lemma getOwn_app o o' k :
  getOwn (o ++ o') k
  = match getOwn o k with Some v => Some v | None => getOwn o' k end.
Proof.
  induction o as [|[i v] r IH]; cbn; auto.
  now destruct (String.eqb i k).
Qed.

Lemma updateOwn_keys o k (f : V -> V) :
  map fst (updateOwn o k f) = map fst o.
Proof.
  induction o as [|[i v] r IH]; cbn; auto.
  destruct (String.eqb i k); cbn; now rewrite ?IH.
Qed.

Lemma getOwn_updateOwn o k j (f : V -> V) :
  getOwn (updateOwn o k f) j
  = if String.eqb k j then option_map f (getOwn o k) else getOwn o j.
Proof.
  induction o as [|[i v] r IH]; cbn.
  - now destruct (String.eqb k j).
  - destruct (String.eqb i k) eqn:Eik; cbn.
    + apply String.eqb_eq in Eik. subst i.
      now destruct (String.eqb k j).
    + rewrite IH. destruct (String.eqb k j) eqn:Ekj; auto.
      apply String.eqb_eq in Ekj. subst j. now rewrite Eik.
Qed.

Lemma getOwn_keys o k :
  In k (map fst o) -> getOwn o k <> None.
Proof.
  induction o as [|[i v] r IH]; cbn; [tauto|].
  intros [<-|H].
  - now rewrite String.eqb_refl.
  - destruct (String.eqb i k); [discriminate|auto].
Qed.
End ObjFacts.

Lemma forInOrder_plain (ks : list string) :
  (forall k, In k ks -> arrayIndex k = None) -> forInOrder ks = ks.
Proof.
  intros H. unfold forInOrder.
  assert (Hi : indexKeys ks = []).
  { induction ks as [|k r IH]; auto. cbn.
    rewrite (H k) by now left. apply IH. intros j Hj. apply H. now right. }
  rewrite Hi. cbn.
  induction ks as [|k r IH]; auto. cbn.
  rewrite (H k) by now left. f_equal. apply IH.
  - intros j Hj. apply H. now right.
  - cbn in Hi. now rewrite (H k) in Hi by now left.
Qed.

(** *** The aggregation *)

Lemma addResult_keys (m : list (string * Perf)) (r : t) :
  JS.inherited (topic r) = false ->
  map fst (addResult m r)
  = if existsb (String.eqb (topic r)) (map fst m) then map fst m
    else map fst m ++ [topic r].
Proof.
  intros Hi. unfold addResult. rewrite Hi, updateOwn_keys, hasOwn_keys.
  destruct (existsb _ _); auto.
  now rewrite map_app.
Qed.

Lemma addResult_getOwn (m : list (string * Perf)) (r : t) (j : string) :
  JS.inherited (topic r) = false ->
  getOwn (addResult m r) j
  = if String.eqb (topic r) j then
      let p := match getOwn m (topic r) with
               | Some p => p
               | None => {| correct := 0%float; total := 0%float |}
               end in
      Some {| correct := (correct p + score r)%float;
              total := (total p + total_questions r)%float |}
    else getOwn m j.
Proof.
  intros Hi. unfold addResult. rewrite Hi, getOwn_updateOwn.
  unfold hasOwn.
  destruct (getOwn m (topic r)) as [p|] eqn:E.
  - rewrite E. now destruct (String.eqb (topic r) j).
  - rewrite !getOwn_app, E. cbn. rewrite String.eqb_refl. cbn.
    destruct (String.eqb (topic r) j) eqn:Ej; auto.
    now destruct (getOwn m j).
Qed.

Lemma firstSeen_ext (s1 s2 l : list string) :
  (forall x, existsb (String.eqb x) s1 = existsb (String.eqb x) s2) ->
  firstSeen s1 l = firstSeen s2 l.
Proof.
  revert s1 s2. induction l as [|k r IH]; intros s1 s2 H; auto.
  cbn. rewrite (H k). destruct (existsb (String.eqb k) s2); auto.
  f_equal. apply IH. intros x. cbn. now rewrite H.
Qed.

Lemma firstSeen_In (seen l : list string) (k : string) :
  In k (firstSeen seen l) -> In k l.
Proof.
  revert seen. induction l as [|x r IH]; intros seen; cbn; auto.
  destruct (existsb (String.eqb x) seen).
  - intros H. right. eapply IH; eauto.
  - intros [H|H]; [now left|right; eapply IH; eauto].
Qed.

Lemma topicPerformance_keys (rs : list t) (m : list (string * Perf)) :
  (forall r, In r rs -> JS.inherited (topic r) = false) ->
  map fst (fold_left addResult rs m)
  = map fst m ++ firstSeen (map fst m) (map topic rs).
Proof.
  revert m. induction rs as [|r rs IH]; intros m H; cbn.
  - now rewrite app_nil_r.
  - rewrite IH by (intros x Hx; apply H; now right).
    rewrite addResult_keys by (apply H; now left).
    destruct (existsb (String.eqb (topic r)) (map fst m)) eqn:E; auto.
    rewrite <- app_assoc. cbn. do 2 f_equal.
    apply firstSeen_ext. intros x. rewrite existsb_app. cbn.
    rewrite orb_false_r. apply orb_comm.
Qed.

Lemma topicPerformance_getOwn (rs : list t) (m : list (string * Perf))
    (j : string) :
  (forall r, In r rs -> JS.inherited (topic r) = false) ->
  getOwn (fold_left addResult rs m) j
  = let sums c n :=
      Some {| correct :=
                fold_left
                  (fun a r => if String.eqb (topic r) j
                              then (a + score r)%float else a) rs c;
              total :=
                fold_left
                  (fun a r => if String.eqb (topic r) j
                              then (a + total_questions r)%float else a)
                  rs n |} in
    match getOwn m j with
    | Some p => sums (correct p) (total p)
    | None =>
        if existsb (fun r => String.eqb (topic r) j) rs
        then sums 0%float 0%float else None
    end.
Proof.
  revert m. induction rs as [|r rs IH]; intros m H; cbn.
  - now destruct (getOwn m j) as [[c n]|].
  - rewrite IH by (intros x Hx; apply H; now right).
    rewrite addResult_getOwn by (apply H; now left). cbn.
    destruct (String.eqb (topic r) j) eqn:E; cbn.
    + apply String.eqb_eq in E. rewrite E.
      now destruct (getOwn m j) as [[c n]|].
    + reflexivity.
Qed.

Lemma topicPerformance_accuracy (rs : list t) (j : string) :
  (forall r, In r rs -> JS.inherited (topic r) = false) ->
  In j (topicsOf rs) ->
  accuracyIn (topicPerformance rs) j = aggregateAccuracy rs j.
Proof.
  intros H Hj. unfold accuracyIn, topicPerformance.
  rewrite topicPerformance_getOwn by exact H. cbn.
  assert (He : existsb (fun r => String.eqb (topic r) j) rs = true).
  { apply firstSeen_In, in_map_iff in Hj. destruct Hj as (r & <- & Hr).
    apply existsb_exists. exists r. split; auto. apply String.eqb_refl. }
  rewrite He. reflexivity.
Qed.

(** *** The suggestion *)

Lemma ordinary_parts (k : string) :
  ordinary k = true ->
  k <> "" /\ JS.inherited k = false /\ JS.arrayIndex k = None.
Proof.
  unfold ordinary. intros H.
  apply andb_prop in H. destruct H as [H Hidx].
  apply andb_prop in H. destruct H as [Hne Hinh].
  repeat split.
  - intros ->. discriminate.
  - now destruct (JS.inherited k).
  - now destruct (JS.arrayIndex k).
Qed.

Lemma firstMinimum_ext (A A' : string -> float) (ks : list string)
    (t : string) :
  (forall u, In u ks -> A u = A' u) ->
  firstMinimum A ks t -> firstMinimum A' ks t.
Proof.
  intros H (pre & post & Hks & Ht & Hmin & Hpre).
  assert (Hin : In t ks) by (rewrite Hks; apply in_elt).
  exists pre, post. split; [exact Hks|].
  rewrite <- (H t Hin). split; [exact Ht|]. split.
  - intros u Hu. rewrite <- (H u Hu). now apply Hmin.
  - intros u Hu.
    assert (Hu' : In u ks) by (rewrite Hks; apply in_or_app; now left).
    rewrite <- (H u Hu'). now apply Hpre.
Qed.

Lemma topicsOf_from (rs : list t) (k : string) :
  In k (topicsOf rs) -> exists r, In r rs /\ topic r = k.
Proof.
  intros H. apply firstSeen_In, in_map_iff in H.
  destruct H as (r & Hr & Hin). now exists r.
Qed.

(** What [processSuggestions] does on a non-empty list of results with
    ordinary topic names: either no topic's accuracy is below 101 and the
    state cell keeps its value, or the cell is set to the first topic of
    least accuracy. *)
Lemma suggestion_outcome (slug : string -> string) (rs : list t)
    (prev : option Suggestion) :
  rs <> [] ->
  (forall r, In r rs -> ordinary (topic r) = true) ->
  (processSuggestions slug rs prev = prev
   /\ forall u, In u (topicsOf rs) ->
                (aggregateAccuracy rs u <? 101)%float = false)
  \/ (exists w,
        processSuggestions slug rs prev
        = Some {| name := w; key := slug w |}
        /\ firstMinimum (aggregateAccuracy rs) (topicsOf rs) w).
Proof.
  intros Hne Hord.
  assert (Hinh : forall r, In r rs -> JS.inherited (topic r) = false).
  { intros r Hr. now apply ordinary_parts, Hord. }
  assert (Hkeys : map fst (topicPerformance rs) = topicsOf rs).
  { unfold topicPerformance. now rewrite topicPerformance_keys. }
  assert (Hplain : forall k, In k (topicsOf rs) ->
                             k <> "" /\ JS.arrayIndex k = None).
  { intros k Hk. apply topicsOf_from in Hk. destruct Hk as (r & Hr & <-).
    destruct (ordinary_parts _ (Hord r Hr)) as (H1 & _ & H3). auto. }
  assert (Hacc : forall u, In u (topicsOf rs) ->
                   accuracyIn (topicPerformance rs) u
                   = aggregateAccuracy rs u).
  { intros u Hu. now apply topicPerformance_accuracy. }
  unfold processSuggestions, worst.
  destruct rs as [|r0 rs0] eqn:Ers; [now elim Hne|].
  cbn [length Nat.eqb]. rewrite <- Ers in *. clear Ers r0 rs0 Hne.
  rewrite Hkeys, forInOrder_plain by (intros k Hk; now apply Hplain).
  destruct (search_outcome (topicPerformance rs) (topicsOf rs))
    as [(Hw & _ & Hall)|(w & Hw & _ & Hmin)].
  - intros k Hk. apply getOwn_keys. now rewrite Hkeys.
  - left. rewrite Hw. split; auto.
    intros u Hu. rewrite <- Hacc by exact Hu. now apply Hall.
  - right. exists w. rewrite Hw.
    assert (Hin : In w (topicsOf rs)).
    { destruct Hmin as (pre & post & -> & _). apply in_elt. }
    destruct (Hplain w Hin) as [Hne _].
    apply String.eqb_neq in Hne. rewrite Hne. split; auto.
    now apply (firstMinimum_ext (accuracyIn (topicPerformance rs))).
Qed.

(** C10 as stated fails.  A single result with no questions is a
    non-empty list, its topic's accuracy is [0 / 0 * 100], which is NaN
    and not below 101, and the suggestion stays as it was: none. *)
Lemma C10_counterexample_no_questions_no_suggestion :
  let rs := [result "Verbal Ability" 0 0] in
  length rs = 1
  /\ topicsOf rs = ["Verbal Ability"]
  /\ (aggregateAccuracy rs "Verbal Ability" <? 101)%float = false
  /\ processSuggestions asciiSlug rs None = None.
Proof. cbv zeta. repeat split; vm_compute; reflexivity. Qed.

(** C10, amended.  For a non-empty list of results whose topic names are
    ordinary (not empty, not an array index, not a property of
    [Object.prototype]) and in which some topic's aggregate accuracy
    (sum of scores over sum of question counts, times 100, as computed)
    is below 101, the cell is set to a topic: no topic of the list has a
    strictly smaller aggregate accuracy, and none that appeared earlier
    has the same one. *)
Theorem C10_suggests_first_least_accurate_topic
    (slug : string -> string) (rs : list t) (prev : option Suggestion) :
  rs <> [] ->
  (forall r, In r rs -> ordinary (topic r) = true) ->
  (exists u, In u (topicsOf rs)
             /\ (aggregateAccuracy rs u <? 101)%float = true) ->
  exists w pre post,
    processSuggestions slug rs prev = Some {| name := w; key := slug w |}
    /\ topicsOf rs = pre ++ w :: post
    /\ (forall u, In u (topicsOf rs) ->
          (aggregateAccuracy rs u <? aggregateAccuracy rs w)%float = false)
    /\ (forall u, In u pre ->
          (aggregateAccuracy rs u =? aggregateAccuracy rs w)%float = false).
Proof.
  intros Hne Hord (u & Hu & Hlt).
  destruct (suggestion_outcome slug rs prev Hne Hord)
    as [(_ & Hall)|(w & Hw & (pre & post & Hks & _ & Hmin & Hpre))].
  - rewrite (Hall u Hu) in Hlt. discriminate.
  - now exists w, pre, post.
Qed.

Lemma C10_witness :
  exists w pre post,
    processSuggestions asciiSlug sampleWeek None
    = Some {| name := w; key := asciiSlug w |}
    /\ topicsOf sampleWeek = pre ++ w :: post
    /\ (forall u, In u (topicsOf sampleWeek) ->
          (aggregateAccuracy sampleWeek u
           <? aggregateAccuracy sampleWeek w)%float = false)
    /\ (forall u, In u pre ->
          (aggregateAccuracy sampleWeek u
           =? aggregateAccuracy sampleWeek w)%float = false).
Proof.
  apply (C10_suggests_first_least_accurate_topic asciiSlug sampleWeek None).
  - discriminate.
  - intros r [<-|[<-|[<-|[<-|[]]]]]; reflexivity.
  - exists "Logical Reasoning". split.
    + vm_compute. tauto.
    + vm_compute. reflexivity.
Defined.

(** On the sample week the two topics at 20 percent tie and the one seen
    first is suggested. *)
Example sampleWeek_suggestion :
  processSuggestions asciiSlug sampleWeek None
  = Some {| name := "Logical Reasoning"; key := "logical-reasoning" |}.
Proof. vm_compute. reflexivity. Qed.

End DashboardFacts.

(** ** Completion called twice *)

Module PracticeClosureFacts.
Import Types JS Practice PracticeFacts PracticeUI PracticeClosure.

(** Called by the render of the current state, the handler is the
    state-passing [handleCompletion]. *)
Lemma handleCompletionFrom_current (B : Backend) (s : State) :
  handleCompletionFrom B s s = handleCompletion B s.
Proof. reflexivity. Qed.

(** What the handler sends depends on the captured state alone. *)
Lemma handleCompletionFrom_effects (B : Backend) (captured current : State) :
  snd (handleCompletionFrom B captured current)
  = snd (handleCompletion B captured).
Proof.
unfold handleCompletionFrom, handleCompletion.
destruct (TestState_eqb (testState captured) Completed); [reflexivity|].
destruct (selectedTopic captured), (user captured); try reflexivity.
destruct (insertTestResult B _ _ _ _); [reflexivity|].
destruct (0 <? _); [|reflexivity].
now destruct (incrementUserScore B _).
Qed.

(** A second call from the same render repeats every call of the first:
    the guard reads the captured [testState], which the first call did
    not change. *)
Lemma completedTwice_repeats (B : Backend) (rendered : State) :
  snd (completedTwice B rendered)
  = snd (handleCompletion B rendered) ++ snd (handleCompletion B rendered).
Proof.
unfold completedTwice.
pose proof (handleCompletionFrom_effects B rendered rendered) as H1.
destruct (handleCompletionFrom B rendered rendered) as [s1 e1].
pose proof (handleCompletionFrom_effects B rendered s1) as H2.
destruct (handleCompletionFrom B rendered s1) as [s2 e2].
cbn [snd] in *. now rewrite H1, H2.
Qed.

(** C2. [handleCompletion] is not idempotent when called twice in
    succession.  In the render that draws "Finish Test" with the clock at
    zero (test in progress, both answers correct), the first call makes
    the state [Completed], inserts the record and requests 200 points;
    a second call of the same render's handler, made when the state is
    already [Completed], inserts a second record and requests the 200
    points again, and the local profile ends 400 points up.  The guard
    would stop only a handler built by a render of the completed state. *)
Theorem C2_second_call_of_a_render_reports_again :
  let first := handleCompletionFrom healthy lastRender lastRender in
  let second := handleCompletionFrom healthy lastRender (fst first) in
  testState lastRender = InProgress
  /\ computeScore lastRender = 2
  /\ testState (fst first) = Completed
  /\ snd first = [Insert "alice" "Verbal Ability" 2 2 None; Rpc 200 None]
  /\ snd second = [Insert "alice" "Verbal Ability" 2 2 None; Rpc 200 None]
  /\ length (List.filter isInsert (snd (completedTwice healthy lastRender)))
     = 2
  /\ length (List.filter isRpc (snd (completedTwice healthy lastRender)))
     = 2
  /\ option_map Profile.score (profile lastRender) = Some 500%Z
  /\ option_map Profile.score (profile (fst second)) = Some 900%Z
  /\ handleCompletion healthy (fst first) = (fst first, []).
Proof. cbv zeta. repeat split; vm_compute; reflexivity. Qed.

End PracticeClosureFacts.

(** ** More on the practice session *)

Module PracticeMore.
Import Types JS JSFacts Practice PracticeFacts PracticeUI.

(** *** The score is bounded *)

Lemma filter_from_bound (qs : list Question.t) (a : list slot) (i : nat) :
  length (filter_from (correctAt qs) i a) <= length a
  /\ length (filter_from (correctAt qs) i a) <= length qs - i.
Proof.
revert i. induction a as [|c r IH]; intros i; cbn [filter_from length].
- split; lia.
- destruct (IH (S i)) as [H1 H2].
  assert (Hc : correctAt qs c i = true -> i < length qs).
  { unfold correctAt. destruct (nth_error qs i) eqn:E; [|discriminate].
    intros _. apply nth_error_Some. congruence. }
  destruct c; try (split; lia);
    destruct (correctAt qs _ i); cbn [length]; split; lia.
Qed.

(** The score never exceeds the number of answer positions nor the number
    of questions, so the points never exceed a hundred per question. *)
Theorem score_at_most_questions (s : State) :
  computeScore s <= length (answers s)
  /\ computeScore s <= length (questions s)
  /\ computeScore s * 100 <= 100 * length (questions s).
Proof.
unfold computeScore, JS.filter.
destruct (filter_from_bound (questions s) (answers s) 0) as [H1 H2].
repeat split; lia.
Qed.

(** *** The last answer wins *)

Lemma spread_spread (a : list slot) : spread (spread a) = spread a.
Proof.
unfold spread. rewrite map_map. apply map_ext. now intros [| | |x].
Qed.

Lemma spread_replace_at (a : list slot) (i : nat) (o : string) :
  spread (replace_at a i (Str o)) = replace_at (spread a) i (Str o).
Proof.
revert i. induction a as [|c r IH]; intros [|j]; cbn; auto.
now rewrite IH.
Qed.

Lemma replace_at_twice (a : list slot) (i : nat) (v w : slot) :
  replace_at (replace_at a i v) i w = replace_at a i w.
Proof.
revert i. induction a as [|c r IH]; intros [|j]; cbn; auto.
now rewrite IH.
Qed.

Lemma replace_at_end (a : list slot) (v w : slot) :
  replace_at (a ++ [v]) (length a) w = a ++ [w].
Proof. induction a as [|c r IH]; cbn; auto. now rewrite IH. Qed.

Lemma assign_spread_twice (a : list slot) (i : nat) (o1 o2 : string) :
  i <= length a ->
  assign (spread (assign (spread a) i (Str o1))) i (Str o2)
  = assign (spread a) i (Str o2).
Proof.
intros Hi. unfold assign at 2 3. rewrite spread_length.
destruct (i <? length a) eqn:E.
- rewrite spread_replace_at, spread_spread. unfold assign.
  rewrite replace_at_length, spread_length, E.
  apply replace_at_twice.
- apply Nat.ltb_ge in E. assert (i = length a) by lia. subst i.
  rewrite Nat.sub_diag. cbn [repeat app].
  unfold spread at 1. rewrite map_app. cbn [map].
  fold (spread (spread a)). rewrite spread_spread.
  unfold assign. rewrite length_app, spread_length. cbn [length].
  replace (length a <? length a + 1) with true
    by (symmetry; apply Nat.ltb_lt; lia).
  rewrite <- (spread_length a) at 1. apply replace_at_end.
Qed.

(** Answering the same question again overwrites the earlier answer: with
    the cursor inside the array (or just at its end), answering [o1] and
    then [o2] leaves exactly the state of answering [o2] alone. *)
Theorem answer_last_write_wins (o1 o2 : string) (s : State) :
  currentQuestionIndex s <= length (answers s) ->
  handleAnswer o2 (handleAnswer o1 s) = handleAnswer o2 s.
Proof.
intros Hi. unfold handleAnswer. cbn.
now rewrite assign_spread_twice.
Qed.

Lemma answer_last_write_wins_witness :
  handleAnswer "9" (handleAnswer "6" (fst (run healthy [Answer "4"; Next]
                                             (started healthy))))
  = handleAnswer "9" (fst (run healthy [Answer "4"; Next]
                             (started healthy))).
Proof.
apply (answer_last_write_wins "6" "9"). vm_compute. lia.
Defined.

(** *** The clock *)

Lemma tick_spec (B : Backend) (s : State) :
  ((testState s <> InProgress \/ (timeLeft s <= 0)%Z)
   /\ tick B s = (s, []))
  \/ (testState s = InProgress /\ (1 < timeLeft s)%Z
      /\ tick B s = (setTimeLeft (timeLeft s - 1) s, []))
  \/ (testState s = InProgress /\ timeLeft s = 1%Z
      /\ tick B s = handleCompletion B (setTimeLeft 0 s)).
Proof.
unfold tick, timerEffect. cbn.
destruct (testState s) eqn:E; cbn;
  try (left; split; [left; discriminate | reflexivity]).
destruct (0 <? timeLeft s)%Z eqn:E0.
- apply Z.ltb_lt in E0.
  destruct (0 <? timeLeft s - 1)%Z eqn:E1.
  + apply Z.ltb_lt in E1. right; left. repeat split; auto. lia.
  + apply Z.ltb_ge in E1. assert (Ht : timeLeft s = 1%Z) by lia.
    right; right. rewrite Ht. cbn. repeat split; auto.
- apply Z.ltb_ge in E0. left. split; [now right | reflexivity].
Qed.

Lemma step_silent_when_completed (B : Backend) (a : Action) (s : State) :
  testState s = Completed ->
  snd (step B a s) = [] /\ testState (fst (step B a s)) = Completed.
Proof.
intros Hc. destruct a; cbn [step fst snd].
- split; auto.
- unfold goToNextQuestion.
  destruct (_ <? _)%Z; cbn; [now split|].
  rewrite handleCompletion_Completed by exact Hc. now split.
- destruct (tick_spec B s) as [(_ & ->) | [(Hp & _) | (Hp & _)]];
    [now split | congruence | congruence].
- rewrite handleCompletion_Completed by exact Hc. now split.
Qed.

Lemma run_silent_when_completed (B : Backend) (l : list Action)
    (s : State) :
  testState s = Completed ->
  snd (run B l s) = [] /\ testState (fst (run B l s)) = Completed.
Proof.
revert s. induction l as [|a l IH]; intros s Hc; [now split|].
cbn [run].
destruct (step_silent_when_completed B a s Hc) as [He Hc1].
destruct (step B a s) as [s1 e1]. cbn [fst snd] in *. subst e1.
specialize (IH s1 Hc1).
destruct (run B l s1) as [s2 e2]. cbn [fst snd] in *. now split.
Qed.

Lemma ticks_idle_when_completed (B : Backend) (m : nat) (s : State) :
  testState s = Completed -> run B (repeat Tick m) s = (s, []).
Proof.
intros Hc. induction m as [|m IH]; [reflexivity|].
cbn [repeat run step].
destruct (tick_spec B s) as [(_ & ->) | [(Hp & _) | (Hp & _)]];
  try congruence.
now rewrite IH.
Qed.

(** When the clock of a running test shows [n + 1] seconds, [n + 1] firings
    of the timeout complete the test, with the effects of one completion
    at clock zero; any further firings change nothing. *)
Theorem timer_expiry_completes_once (B : Backend) (s : State) (n m : nat) :
  testState s = InProgress -> timeLeft s = Z.of_nat (S n) ->
  run B (repeat Tick (S n + m)) s
  = handleCompletion B (setTimeLeft 0 s).
Proof.
revert s. induction n as [|n IH]; intros s Hp Ht.
- cbn [Nat.add repeat run step].
  destruct (tick_spec B s)
    as [([Hn|Hle] & _) | [(_ & Hlt & _) | (_ & _ & ->)]];
    [congruence | lia | lia | ].
  destruct (handleCompletion_frame B (setTimeLeft 0 s)) as (Hc & _).
  destruct (handleCompletion B (setTimeLeft 0 s)) as [s1 e1].
  cbn [fst] in Hc.
  rewrite (ticks_idle_when_completed B m s1 Hc).
  now rewrite app_nil_r.
- change (S (S n) + m) with (S (S n + m)). cbn [repeat run step].
  destruct (tick_spec B s)
    as [([Hn|Hle] & _) | [(_ & _ & ->) | (_ & Hone & _)]];
    [congruence | lia | | lia].
  rewrite (IH (setTimeLeft (timeLeft s - 1) s)) by (cbn; auto; lia).
  cbn. now destruct (handleCompletion B _).
Qed.

Lemma timer_expiry_witness :
  run healthy (repeat Tick (S 299 + 5)) (started healthy)
  = handleCompletion healthy (setTimeLeft 0 (started healthy)).
Proof.
apply (timer_expiry_completes_once healthy (started healthy) 299 5);
  vm_compute; reflexivity.
Defined.

Lemma step_clock (B : Backend) (a : Action) (s : State) :
  (0 <= timeLeft s)%Z ->
  (0 <= timeLeft (fst (step B a s)) <= timeLeft s)%Z.
Proof.
intros H0. destruct a; cbn [step fst].
- cbn. lia.
- destruct (goToNextQuestion_cases B s) as [[_ ->] | [_ ->]].
  + cbn. lia.
  + destruct (handleCompletion_frame B (setShowExplanation false s))
      as (_ & _ & _ & _ & _ & -> & _). cbn. lia.
- destruct (tick_spec B s)
    as [(_ & ->) | [(_ & Hlt & ->) | (_ & Hone & ->)]].
  + cbn. lia.
  + cbn. lia.
  + destruct (handleCompletion_frame B (setTimeLeft 0 s))
      as (_ & _ & _ & _ & _ & -> & _). cbn. lia.
- destruct (handleCompletion_frame B s) as (_ & _ & _ & _ & _ & -> & _).
  lia.
Qed.

Lemma run_clock (B : Backend) (l : list Action) (s : State) :
  (0 <= timeLeft s)%Z ->
  (0 <= timeLeft (fst (run B l s)) <= timeLeft s)%Z.
Proof.
revert s. induction l as [|a l IH]; intros s H0; [cbn; lia|].
rewrite run_cons.
destruct (step_clock B a s H0) as [H1 H2].
specialize (IH _ H1). lia.
Qed.

(** From the start of a session the clock never rises and stays between 0
    and 300, whatever the user and the timer do. *)
Theorem clock_never_rises (B : Backend) (topicName : string) (s : State)
    (l1 l2 : list Action) :
  generateAptitudeQuestions B topicName 5 <> [] ->
  let s0 := fst (startTest B topicName s) in
  timeLeft s0 = 300%Z
  /\ (0 <= timeLeft (fst (run B (l1 ++ l2) s0))
      <= timeLeft (fst (run B l1 s0)))%Z
  /\ (timeLeft (fst (run B l1 s0)) <= 300)%Z.
Proof.
intros Hne. cbv zeta.
assert (H0 : timeLeft (fst (startTest B topicName s)) = 300%Z).
{ unfold startTest.
  destruct (generateAptitudeQuestions B topicName 5); [now elim Hne|].
  reflexivity. }
split; [exact H0|]. rewrite run_app.
pose proof (run_clock B l1 (fst (startTest B topicName s))) as H1.
rewrite H0 in H1. specialize (H1 ltac:(lia)).
pose proof (run_clock B l2 (fst (run B l1 (fst (startTest B topicName s)))))
  as H2.
specialize (H2 ltac:(lia)). lia.
Qed.

Lemma clock_never_rises_witness :
  (0 <= timeLeft (fst (run healthy ([Tick; Answer "4"] ++ [Tick; Next])
                         (fst (startTest healthy "Verbal Ability"
                                 (initial None None None)))))
   <= timeLeft (fst (run healthy [Tick; Answer "4"]
                       (fst (startTest healthy "Verbal Ability"
                               (initial None None None))))))%Z.
Proof.
destruct (clock_never_rises healthy "Verbal Ability"
            (initial None None None) [Tick; Answer "4"] [Tick; Next])
  as (_ & H & _).
- vm_compute. discriminate.
- exact H.
Defined.

(** *** The local profile follows the remote one *)

(** [handleCompletion] called outside the [Completed] state adds points to
    the local profile exactly when the increment call succeeded, and then
    exactly the points requested; it records a save error exactly when it
    logged one, with the same message. *)
Theorem local_score_follows_increment (B : Backend) (s : State) :
  testState s <> Completed ->
  let s' := fst (handleCompletion B s) in
  let ev := snd (handleCompletion B s) in
  (forall v, In (Rpc v None) ev -> profile s' = addPoints v (profile s))
  /\ ((forall v, ~ In (Rpc v None) ev) -> profile s' = profile s)
  /\ (forall e, saveError s' = Some e <-> In (ConsoleError e) ev).
Proof.
intros Hn. cbv zeta. unfold handleCompletion.
destruct (testState s) eqn:E; try (now elim Hn); cbn [TestState_eqb];
  (destruct (selectedTopic s) as [t|], (user s) as [u|];
   try destruct (insertTestResult B _ _ _ _) as [e1|];
   try destruct (0 <? _) eqn:Ep;
   try destruct (incrementUserScore B _) as [e2|]; cbn;
   (split; [|split];
    [ intros v H; repeat (destruct H as [H|H]; try discriminate);
      try contradiction; try (inversion H; subst; reflexivity)
    | intros H; try reflexivity;
      exfalso; eapply H; right; left; reflexivity
    | intros e; split; intros H;
      [ try discriminate; inversion H; subst; auto
      | repeat (destruct H as [H|H]; try discriminate);
        try contradiction; inversion H; subst; reflexivity ] ])).
Qed.

Lemma local_score_follows_increment_witness :
  profile (fst (handleCompletion healthy
                  (fst (run healthy [Answer "4"; Next; Answer "9"]
                          (started healthy)))))
  = addPoints 200 (Some aliceProfile).
Proof.
destruct (local_score_follows_increment healthy
            (fst (run healthy [Answer "4"; Next; Answer "9"]
                    (started healthy)))) as [H _].
- vm_compute. discriminate.
- apply (H 200). vm_compute. tauto.
Defined.

(** *** Starting a test *)

Lemma filter_from_all_null (qs : list Question.t) (n i : nat) :
  filter_from (correctAt qs) i (repeat Null n) = [].
Proof.
revert i. induction n as [|n IH]; intros i; cbn; auto.
unfold correctAt at 1. destruct (nth_error qs i); cbn; apply IH.
Qed.

(** [startTest] either starts from a clean slate or gives up.  With a
    non-empty fetch the state is the fresh session built from the fetched
    questions alone (cursor 0, every answer null, clock 300, no error),
    whatever an earlier session left behind, its score is 0 and nothing is
    sent anywhere.  With an empty fetch the state is [NotStarted], the
    user is alerted and sent back to [/practice], and the questions,
    answers and cursor of the earlier session are not touched. *)
Theorem start_test_outcomes (B : Backend) (topicName : string) (s : State) :
  let fetched := generateAptitudeQuestions B topicName 5 in
  (fetched <> [] ->
   startTest B topicName s = (freshSession fetched s, [])
   /\ computeScore (freshSession fetched s) = 0
   /\ sessionInv (freshSession fetched s))
  /\ (fetched = [] ->
      let s' := fst (startTest B topicName s) in
      testState s' = NotStarted
      /\ saveError s' = None
      /\ snd (startTest B topicName s)
         = [Alert "Could not load questions. Please try again.";
            Navigate "/practice"]
      /\ questions s' = questions s
      /\ answers s' = answers s
      /\ currentQuestionIndex s' = currentQuestionIndex s).
Proof.
cbv zeta. unfold startTest. split.
- intros Hne.
  destruct (generateAptitudeQuestions B topicName 5) as [|q r] eqn:E;
    [now elim Hne|].
  split; [reflexivity|]. split.
  + unfold computeScore, JS.filter, freshSession, filled_null. cbn -[repeat].
    now rewrite filter_from_all_null.
  + unfold sessionInv, freshSession, filled_null. cbn -[repeat].
    rewrite repeat_length. cbn. lia.
- intros ->. cbn. repeat split.
Qed.

(** *** A perfect run *)

Lemma all_correct_counted (pre rest : list Question.t) :
  length (filter_from (correctAt (pre ++ rest)) (length pre)
            (map (fun q => Str (Question.correctAnswer q)) rest))
  = length rest.
Proof.
revert pre. induction rest as [|q rest IH]; intros pre; auto.
cbn [map filter_from].
assert (Hq : correctAt (pre ++ q :: rest)
               (Str (Question.correctAnswer q)) (length pre) = true).
{ unfold correctAt. rewrite nth_error_app2, Nat.sub_diag by lia. cbn.
  apply String.eqb_refl. }
rewrite Hq. cbn [length]. f_equal.
specialize (IH (pre ++ [q])).
rewrite <- app_assoc, length_app in IH. cbn in IH.
now rewrite Nat.add_1_r in IH.
Qed.

Lemma spread_answered (done : list Question.t) (n : nat) :
  spread (map (fun q => Str (Question.correctAnswer q)) done
          ++ repeat Null n)
  = map (fun q => Str (Question.correctAnswer q)) done ++ repeat Null n.
Proof.
unfold spread. rewrite map_app, map_map. f_equal.
induction n as [|n IH]; cbn; auto. now rewrite IH.
Qed.

Lemma replace_at_middle (a r : list slot) (c v : slot) :
  replace_at (a ++ c :: r) (length a) v = a ++ v :: r.
Proof. induction a as [|x a IH]; cbn; auto. now rewrite IH. Qed.

Lemma perfect_progress (B : Backend) (rest done : list Question.t)
    (s : State) :
  rest <> [] ->
  testState s = InProgress ->
  questions s = done ++ rest ->
  currentQuestionIndex s = length done ->
  answers s
  = map (fun q => Str (Question.correctAnswer q)) done
    ++ repeat Null (length rest) ->
  exists sf,
    run B (perfectRun rest) s = handleCompletion B sf
    /\ testState sf = InProgress
    /\ questions sf = done ++ rest
    /\ answers sf
       = map (fun q => Str (Question.correctAnswer q)) (done ++ rest).
Proof.
revert done s. induction rest as [|q rest IH]; intros done s Hne Hp Hq Hi Ha;
  [now elim Hne|].
assert (Hans : answers (handleAnswer (Question.correctAnswer q) s)
               = map (fun q => Str (Question.correctAnswer q)) (done ++ [q])
                 ++ repeat Null (length rest)).
{ unfold handleAnswer. cbn -[repeat]. rewrite Ha, Hi, spread_answered.
  cbn [length repeat]. unfold assign.
  rewrite length_app, length_map. cbn [length repeat].
  replace (length done <? length done + S (length (repeat Null (length rest))))
    with true by (symmetry; apply Nat.ltb_lt; lia).
  rewrite <- (length_map (fun q => Str (Question.correctAnswer q)) done)
    at 1.
  rewrite replace_at_middle, map_app, <- app_assoc. reflexivity. }
change (perfectRun (q :: rest))
  with (Answer (Question.correctAnswer q) :: Next :: perfectRun rest).
cbn [run step].
destruct (goToNextQuestion_cases B (handleAnswer (Question.correctAnswer q) s))
  as [[Hlt He] | [Hge He]]; rewrite He; clear He.
- (* a further question exists *)
  destruct rest as [|q' rest'].
  { exfalso. revert Hlt. unfold handleAnswer. cbn.
    rewrite Hq, Hi, length_app. cbn. lia. }
  destruct (IH (done ++ [q])
              (setCurrentQuestionIndex
                 (currentQuestionIndex
                    (handleAnswer (Question.correctAnswer q) s) + 1)
                 (setShowExplanation false
                    (handleAnswer (Question.correctAnswer q) s))))
    as (sf & Hr & Hsf & Hqf & Haf).
  + discriminate.
  + cbn. exact Hp.
  + cbn. rewrite Hq, <- app_assoc. reflexivity.
  + cbn. rewrite Hi, length_app. reflexivity.
  + cbn -[repeat]. exact Hans.
  + exists sf. rewrite Hr. rewrite <- app_assoc in Hqf, Haf.
    repeat split; auto. now destruct (handleCompletion B sf).
- (* the last question *)
  destruct rest as [|q' rest'].
  + exists (setShowExplanation false
              (handleAnswer (Question.correctAnswer q) s)).
    repeat split.
    * destruct (handleCompletion B _) as [s2 e2]. cbn.
      now rewrite app_nil_r.
    * cbn. exact Hp.
    * cbn. exact Hq.
    * unfold setShowExplanation. cbn [answers]. rewrite Hans. cbn.
      now rewrite app_nil_r.
  + exfalso. apply Hge. unfold handleAnswer. cbn.
    rewrite Hq, Hi, length_app. cbn. lia.
Qed.

(** Answering every question of a started test with its correct answer
    and moving on each time ends in [Completed] with a score equal to the
    number of questions; the record inserted, if any, carries that score
    and that total, and the increment requested, if any, is a hundred
    times it. *)
Theorem perfect_run_scores_all (B : Backend) (topicName : string)
    (s : State) :
  generateAptitudeQuestions B topicName 5 <> [] ->
  let qs := generateAptitudeQuestions B topicName 5 in
  let r := run B (perfectRun qs) (fst (startTest B topicName s)) in
  testState (fst r) = Completed
  /\ computeScore (fst r) = length qs
  /\ (forall u t sc n e, In (Insert u t sc n e) (snd r) ->
                         sc = length qs /\ n = length qs)
  /\ (forall v e, In (Rpc v e) (snd r) -> v = length qs * 100).
Proof.
intros Hne. cbv zeta.
destruct (start_test_outcomes B topicName s) as [Hs _].
cbv zeta in Hs. destruct (Hs Hne) as (Hst & _). rewrite Hst. cbn [fst].
destruct (perfect_progress B (generateAptitudeQuestions B topicName 5) []
            (freshSession (generateAptitudeQuestions B topicName 5) s))
  as (sf & Hr & Hp & Hq & Ha); auto.
rewrite Hr. cbn [app] in Hq, Ha.
assert (Hsc : computeScore sf
              = length (generateAptitudeQuestions B topicName 5)).
{ unfold computeScore, JS.filter. rewrite Hq, Ha.
  apply (all_correct_counted []). }
destruct (handleCompletion_frame B sf) as (Hc & Hqf & Haf & _).
split; [exact Hc|]. split.
{ rewrite (computeScore_ext sf _ Hqf Haf). exact Hsc. }
destruct (handleCompletion_events B sf)
  as [H|[(u&t&e&H)|[(u&t&_&H)|(u&t&r&_&H)]]]; rewrite H, ?Hsc, ?Hq;
  clear H; split.
- intros ? ? ? ? ? [].
- intros ? ? [].
- intros u' t' sc n e' [H|[H|[]]]; inversion H; auto.
- intros v e' [H|[H|[]]]; discriminate.
- intros u' t' sc n e' [H|[]]; inversion H; auto.
- intros v e' [H|[]]; discriminate.
- intros u' t' sc n e' [H|[H|H]]; try (inversion H; auto; fail).
  destruct r; cbn in H; [destruct H as [H|[]]; discriminate|contradiction].
- intros v e' [H|[H|H]]; try discriminate.
  + now inversion H.
  + destruct r; cbn in H; [destruct H as [H|[]]; discriminate|contradiction].
Qed.

Lemma perfect_run_scores_all_witness :
  computeScore
    (fst (run healthy
            (perfectRun (generateAptitudeQuestions healthy "Verbal Ability" 5))
            (fst (startTest healthy "Verbal Ability"
                    (initial (Some "verbal-ability") (Some alice)
                       (Some aliceProfile))))))
  = length (generateAptitudeQuestions healthy "Verbal Ability" 5).
Proof.
destruct (perfect_run_scores_all healthy "Verbal Ability"
            (initial (Some "verbal-ability") (Some alice)
               (Some aliceProfile)))
  as (_ & H & _).
- vm_compute. discriminate.
- exact H.
Defined.

(** *** The page under the view's gating *)









(** *** Routes *)

(** A route without a topic, or with a key that is none of the five topic
    keys, resets the page instead of starting a test: the state is
    [NotStarted] with no questions, the only effect is the navigation to
    [/practice], and the topic selection is shown.  A route with one of
    the five keys starts that topic's test. *)
Theorem route_selects_or_resets (B : Backend) (k : option string)
    (s : State) :
  (selectedTopic (setTopicKey k s) = None ->
   routeEffect B k s = resetTest (setTopicKey k s)
   /\ testState (fst (routeEffect B k s)) = NotStarted
   /\ questions (fst (routeEffect B k s)) = []
   /\ snd (routeEffect B k s) = [Navigate "/practice"]
   /\ render (fst (routeEffect B k s)) = Some TopicSelection)
  /\ (forall tp, selectedTopic (setTopicKey k s) = Some tp ->
        k = Some (key tp)
        /\ routeEffect B k s = startTest B (name tp) (setTopicKey k s)).
Proof.
split.
- intros Hn.
  assert (He : routeEffect B k s = resetTest (setTopicKey k s)).
  { unfold routeEffect. rewrite Hn. now destruct (truthy k). }
  rewrite He. cbn. repeat split.
  unfold render. cbn.
  change (selectedTopic _) with (selectedTopic (setTopicKey k s)).
  rewrite Hn. now rewrite orb_true_r.
- intros tp Ht. split.
  + unfold selectedTopic in Ht. cbn [topicKey setTopicKey] in Ht.
    destruct k as [x|]; [|discriminate].
    apply find_some in Ht. destruct Ht as [_ Ht].
    apply String.eqb_eq in Ht. now rewrite Ht.
  + unfold routeEffect.
    pose proof (selectedTopic_truthy _ _ Ht) as Hk. cbn in Hk.
    now rewrite Hk, Ht.
Qed.

End PracticeMore.

(** ** More on the leaderboard *)

Module LeaderboardMore.
Import Types Leaderboard LeaderboardFacts.

Lemma rankFrom_base (i : nat) (d : list Profile.t) :
  map base (rankFrom i d) = d.
Proof. revert i. induction d as [|p r IH]; intros i; cbn; now rewrite ?IH. Qed.

Lemma rankFrom_rank (i : nat) (d : list Profile.t) :
  map rank (rankFrom i d) = seq (i + 1) (length d).
Proof.
revert i. induction d as [|p r IH]; intros i; auto.
cbn [rankFrom map rank length seq]. now rewrite IH.
Qed.

Lemma fetch_leaderboard (B : Backend) (s : State) (d : list Profile.t) :
  error (selectTop B) = None -> data (selectTop B) = Some d ->
  leaderboard (fetchLeaderboardData B s) = rankFrom 0 d.
Proof.
intros He Hd. unfold fetchLeaderboardData. rewrite He, Hd.
destruct (profile s) as [p|]; [|reflexivity].
now destruct (rankError (countScoreGt B (Profile.score p))).
Qed.

(** When the top-ten query succeeds, the table lists the returned profiles
    in the order returned and numbers them 1, 2, 3, ... by position: the
    ranks are all different, also for profiles with equal scores. *)
Theorem table_numbered_by_position (B : Backend) (s : State)
    (d : list Profile.t) :
  error (selectTop B) = None -> data (selectTop B) = Some d ->
  let rows := leaderboard (fetchLeaderboardData B s) in
  map base rows = d
  /\ map rank rows = seq 1 (length d)
  /\ NoDup (map rank rows).
Proof.
intros He Hd. cbv zeta. rewrite (fetch_leaderboard B s d He Hd).
rewrite rankFrom_base, rankFrom_rank. repeat split. apply seq_NoDup.
Qed.

Lemma table_numbered_by_position_witness :
  map rank (leaderboard
              (fetchLeaderboardData
                 (hosted {| data := Some sampleTable; error := None |}
                    sampleTable)
                 (mounted "cat" 300)))
  = seq 1 (length sampleTable).
Proof.
destruct (table_numbered_by_position
            (hosted {| data := Some sampleTable; error := None |} sampleTable)
            (mounted "cat" 300) sampleTable eq_refl eq_refl)
  as (_ & H & _).
exact H.
Defined.

(** Failures of the two queries.  If the top-ten query fails, its message
    becomes [fetchError] and neither the table nor the user's rank is
    touched (the rank query is not reached).  If only the rank query
    fails, the table is replaced, no error is shown and the rank computed
    earlier stays. *)
Theorem fetch_failures (B : Backend) (s : State) :
  (forall e, error (selectTop B) = Some e ->
     fetchError (fetchLeaderboardData B s) = Some e
     /\ leaderboard (fetchLeaderboardData B s) = leaderboard s
     /\ userRank (fetchLeaderboardData B s) = userRank s)
  /\ (forall p e d,
        error (selectTop B) = None -> data (selectTop B) = Some d ->
        profile s = Some p ->
        rankError (countScoreGt B (Profile.score p)) = Some e ->
        fetchError (fetchLeaderboardData B s) = None
        /\ leaderboard (fetchLeaderboardData B s) = rankFrom 0 d
        /\ userRank (fetchLeaderboardData B s) = userRank s).
Proof.
split.
- intros e He. unfold fetchLeaderboardData. rewrite He. now cbn.
- intros p e d He Hd Hp Hr. unfold fetchLeaderboardData.
  rewrite He, Hd, Hp, Hr. now cbn.
Qed.

Lemma inTop10_after_fetch (B : Backend) (s : State) (d : list Profile.t) :
  error (selectTop B) = None -> data (selectTop B) = Some d ->
  isUserInTop10 (fetchLeaderboardData B s)
  = match user s with
    | Some u =>
        existsb (fun p => String.eqb (Profile.id p) (User.id u)) d
    | None => false
    end.
Proof.
intros He Hd. unfold isUserInTop10.
rewrite (fetch_leaderboard B s d He Hd).
assert (Hu : user (fetchLeaderboardData B s) = user s).
{ unfold fetchLeaderboardData. rewrite He, Hd.
  destruct (profile s) as [p|]; [|reflexivity].
  now destruct (rankError (countScoreGt B (Profile.score p))). }
rewrite Hu. destruct (user s) as [u|]; [|reflexivity].
clear. generalize 0. induction d as [|p r IH]; intros i; cbn; auto.
now rewrite IH.
Qed.

(** After the initial fetch against a table, with a non-empty top-ten
    answer: a signed-in user who is not among the returned profiles gets
    the separate row, showing one plus the number of profiles scoring
    strictly more; a user who is among them gets no separate row. *)
Theorem own_row_after_fetch (top : TopResponse) (table d : list Profile.t)
    (s : State) (p : Profile.t) (u : User.t) :
  error top = None -> data top = Some d -> d <> [] ->
  profile s = Some p -> user s = Some u ->
  ownRowRank (performInitialFetch (hosted top table) s)
  = if existsb (fun q => String.eqb (Profile.id q) (User.id u)) d
    then None
    else Some (1 + strictlyAbove table (Profile.score p)).
Proof.
intros He Hd Hne Hp Hu. unfold performInitialFetch, ownRowRank. cbn.
set (s1 := fetchLeaderboardData (hosted top table) (setLoading true s)).
assert (Hf : fetchError s1 = None).
{ unfold s1, fetchLeaderboardData. cbn. rewrite He, Hd, Hp. reflexivity. }
assert (Hl : leaderboard s1 = rankFrom 0 d).
{ apply fetch_leaderboard; assumption. }
assert (Hr : userRank s1 = Some (1 + strictlyAbove table (Profile.score p))).
{ unfold s1. rewrite fetch_userRank. cbn. rewrite He, Hp.
  unfold strictlyAbove. f_equal. lia. }
assert (Hpr : profile s1 = Some p).
{ unfold s1, fetchLeaderboardData. cbn. rewrite He, Hd, Hp. cbn.
  exact Hp. }
assert (Hin : isUserInTop10 (setLoading false s1)
              = existsb (fun q => String.eqb (Profile.id q) (User.id u)) d).
{ change (isUserInTop10 (setLoading false s1)) with (isUserInTop10 s1).
  unfold s1.
  rewrite (inTop10_after_fetch (hosted top table) _ d He Hd). cbn.
  now rewrite Hu. }
rewrite Hf, Hl, Hin, Hpr, Hr. cbn.
destruct d as [|q r]; [now elim Hne|]. cbn [rankFrom length Nat.eqb].
now destruct (existsb _ (q :: r)).
Qed.

Lemma own_row_after_fetch_witness :
  ownRowRank (performInitialFetch (hosted sampleTop sampleTable)
                (mounted "cat" 300))
  = Some 2.
Proof.
rewrite (own_row_after_fetch sampleTop sampleTable [mkProfile "ann" 900]
           (mounted "cat" 300) (mkProfile "cat" 300) {| User.id := "cat" |});
  try reflexivity.
discriminate.
Defined.

End LeaderboardMore.

(** ** More on the dashboard suggestion *)

Module DashboardMore.
Import JS Dashboard Dashboard.TestResult DashboardFacts.

(** The aggregation holds an entry for a topic exactly when the topic
    occurs, and the entry holds the running sums of the topic's scores and
    of its question counts, added in list order.  When no topic name is
    an array index, the [for ... in] loop visits the topics in order of
    first appearance.  (Topics named like a property of
    [Object.prototype] are excluded.) *)
Theorem aggregation_sums_per_topic (rs : list t) (tp : string) :
  (forall r, In r rs -> JS.inherited (topic r) = false) ->
  getOwn (topicPerformance rs) tp
  = (if existsb (fun r => String.eqb (topic r) tp) rs
     then Some {| correct := sumScore rs tp; total := sumTotal rs tp |}
     else None)
  /\ ((forall r, In r rs -> JS.arrayIndex (topic r) = None) ->
      JS.forInOrder (map fst (topicPerformance rs)) = topicsOf rs).
Proof.
intros H. unfold topicPerformance. split.
- rewrite topicPerformance_getOwn by exact H. reflexivity.
- intros Hidx. rewrite topicPerformance_keys by exact H. cbn [map app].
  apply forInOrder_plain. intros k Hk.
  apply topicsOf_from in Hk. destruct Hk as (r & Hr & <-). now apply Hidx.
Qed.

Lemma aggregation_sums_per_topic_witness :
  getOwn (topicPerformance sampleWeek) "Verbal Ability"
  = (if existsb (fun r => String.eqb (topic r) "Verbal Ability") sampleWeek
     then Some {| correct := sumScore sampleWeek "Verbal Ability";
                  total := sumTotal sampleWeek "Verbal Ability" |}
     else None)
  /\ JS.forInOrder (map fst (topicPerformance sampleWeek))
     = topicsOf sampleWeek.
Proof.
destruct (aggregation_sums_per_topic sampleWeek "Verbal Ability")
  as (H1 & H2).
- intros r [<-|[<-|[<-|[<-|[]]]]]; reflexivity.
- split; [exact H1|]. apply H2.
  intros r [<-|[<-|[<-|[<-|[]]]]]; reflexivity.
Defined.

(** With array-index topic names the loop visits those first, by value,
    whatever the order of appearance. *)
Example index_named_topics_are_visited_first :
  let rs := [result "Verbal Ability" 1 5; result "7" 1 5;
             result "10" 1 5; result "2" 1 5] in
  topicsOf rs = ["Verbal Ability"; "7"; "10"; "2"]
  /\ JS.forInOrder (map fst (topicPerformance rs))
     = ["2"; "7"; "10"; "Verbal Ability"].
Proof. cbv zeta. split; vm_compute; reflexivity. Qed.

(** When no topic's aggregate accuracy is below 101 (every one is NaN,
    infinite or above 100), a non-empty list of results with ordinary
    topic names leaves the suggestion as it was. *)
Theorem no_suggestion_without_accuracy_below_101
    (slug : string -> string) (rs : list t) (prev : option Suggestion) :
  rs <> [] ->
  (forall r, In r rs -> ordinary (topic r) = true) ->
  (forall u, In u (topicsOf rs) ->
             (aggregateAccuracy rs u <? 101)%float = false) ->
  processSuggestions slug rs prev = prev.
Proof.
intros Hne Hord Hall.
destruct (suggestion_outcome slug rs prev Hne Hord)
  as [(H & _)|(w & _ & (pre & post & Hks & Hw & _))]; [exact H|].
rewrite Hall in Hw; [discriminate|]. rewrite Hks. apply in_elt.
Qed.

Lemma no_suggestion_without_accuracy_below_101_witness :
  processSuggestions asciiSlug
    [result "Verbal Ability" 0 0; result "Logical Reasoning" 7 5]
    (Some {| name := "Let's get started!"; key := "" |})
  = Some {| name := "Let's get started!"; key := "" |}.
Proof.
apply no_suggestion_without_accuracy_below_101.
- discriminate.
- intros r [<-|[<-|[]]]; reflexivity.
- intros u [<-|[<-|[]]]; vm_compute; reflexivity.
Defined.

(** For results whose topics are names of the practice page's topics, a
    suggestion that is made carries the name and the key of one of those
    topics, so the link built from the key opens that topic's test. *)
Theorem suggestion_opens_a_practice_topic (rs : list t)
    (prev : option Suggestion) (u : option Types.User.t)
    (p : option Types.Profile.t) :
  rs <> [] ->
  (forall r, In r rs ->
             In (topic r) (map Practice.name Practice.topics)) ->
  (exists v, In v (topicsOf rs)
             /\ (aggregateAccuracy rs v <? 101)%float = true) ->
  exists tp,
    In tp Practice.topics
    /\ processSuggestions asciiSlug rs prev
       = Some {| name := Practice.name tp; key := Practice.key tp |}
    /\ Practice.selectedTopic
         (Practice.initial (Some (Practice.key tp)) u p) = Some tp.
Proof.
intros Hne Hin (v & Hv & Hlt).
assert (Hord : forall r, In r rs -> ordinary (topic r) = true).
{ intros r Hr. specialize (Hin r Hr). cbn in Hin.
  destruct Hin as [<-|[<-|[<-|[<-|[<-|[]]]]]]; reflexivity. }
destruct (suggestion_outcome asciiSlug rs prev Hne Hord)
  as [(_ & Hall)|(w & Hw & (pre & post & Hks & _))].
{ rewrite (Hall v Hv) in Hlt. discriminate. }
assert (Hwin : In w (topicsOf rs)) by (rewrite Hks; apply in_elt).
apply topicsOf_from in Hwin. destruct Hwin as (r & Hr & <-).
specialize (Hin r Hr). rewrite Hw.
apply in_map_iff in Hin. destruct Hin as (tp & Hname & Htp).
exists tp. rewrite <- Hname. split; [exact Htp|].
cbn in Htp.
destruct Htp as [<-|[<-|[<-|[<-|[<-|[]]]]]]; split; reflexivity.
Qed.

Lemma suggestion_opens_a_practice_topic_witness :
  exists tp,
    In tp Practice.topics
    /\ processSuggestions asciiSlug sampleWeek None
       = Some {| name := Practice.name tp; key := Practice.key tp |}
    /\ Practice.selectedTopic
         (Practice.initial (Some (Practice.key tp)) None None) = Some tp.
Proof.
apply (suggestion_opens_a_practice_topic sampleWeek None None None).
- discriminate.
- intros r [<-|[<-|[<-|[<-|[]]]]]; cbn; tauto.
- exists "Logical Reasoning". split; vm_compute; [tauto | reflexivity].
Defined.

End DashboardMore.

(** ** The weekly chart *)

Module WeeklyFacts.
Import JS Dashboard.TestResult DashboardFacts Weekly.

(** *** Sorting *)

Section SortFacts.
Context {A : Type}.
Variable rank : A -> Z.

Lemma insertSorted_In (x y : A) (l : list A) :
  In y (insertSorted rank x l) <-> y = x \/ In y l.
Proof.
induction l as [|z r IH]; cbn.
- intuition.
- destruct (rank x <=? rank z)%Z; cbn; rewrite ?IH; intuition.
Qed.

Lemma sortBy_In (y : A) (l : list A) : In y (sortBy rank l) <-> In y l.
Proof.
induction l as [|x r IH]; cbn; [tauto|].
rewrite insertSorted_In, IH. intuition.
Qed.
End SortFacts.

Lemma sortBy_map {A B : Type} (f : A -> B) (rank : B -> Z) (l : list A) :
  map f (sortBy (fun e => rank (f e)) l) = sortBy rank (map f l).
Proof.
induction l as [|x r IH]; cbn; auto.
rewrite <- IH. generalize (sortBy (fun e => rank (f e)) r). intros k.
induction k as [|y k IHk]; cbn; auto.
destruct (rank (f x) <=? rank (f y))%Z; cbn; now rewrite ?IHk.
Qed.

(** *** The object of daily scores *)

Lemma addProp_keys (o : list (string * float)) (k : string) (v : float) :
  map fst (addProp o k v)
  = if hasOwn o k then map fst o else map fst o ++ [k].
Proof.
unfold addProp, hasOwn. destruct (getOwn o k).
- apply updateOwn_keys.
- now rewrite map_app.
Qed.

Lemma addProp_getOwn (o : list (string * float)) (k j : string)
    (v : float) :
  getOwn (addProp o k v) j
  = if String.eqb k j
    then Some match getOwn o k with
              | Some x => (x + v)%float
              | None => nan
              end
    else getOwn o j.
Proof.
unfold addProp. destruct (getOwn o k) as [x|] eqn:E.
- rewrite getOwn_updateOwn, E. reflexivity.
- rewrite getOwn_app. cbn.
  destruct (String.eqb k j) eqn:Ej.
  + apply String.eqb_eq in Ej. subst j. now rewrite E.
  + now destruct (getOwn o j).
Qed.

Section ClockFacts.
Variable today : nat.
Variable getDay : string -> option nat.

Lemma fold_add_getOwn (rs : list t) (o : list (string * float))
    (k : string) (v : float) :
  getOwn o k = Some v ->
  getOwn (fold_left (addDay getDay) rs o) k
  = Some (fold_left
            (fun a r =>
               if String.eqb (dayName (getDay (created_at r))) k
               then (a + score r * 100)%float else a)
            rs v).
Proof.
revert o v. induction rs as [|r rs IH]; intros o v Hk; cbn; auto.
erewrite IH; [reflexivity|].
unfold addDay. rewrite addProp_getOwn.
destruct (String.eqb (dayName (getDay (created_at r))) k) eqn:E; auto.
apply String.eqb_eq in E. now rewrite E, Hk.
Qed.

Lemma fold_add_keys_valid (rs : list t) (o : list (string * float)) :
  (forall r, In r rs -> hasOwn o (dayName (getDay (created_at r))) = true) ->
  map fst (fold_left (addDay getDay) rs o) = map fst o.
Proof.
revert o. induction rs as [|r rs IH]; intros o H; cbn; auto.
assert (Hk : map fst (addDay getDay o r) = map fst o).
{ unfold addDay. rewrite addProp_keys, H; auto. now left. }
rewrite IH; auto.
intros x Hx. rewrite hasOwn_keys, Hk, <- hasOwn_keys. apply H. now right.
Qed.

End ClockFacts.

(** *** The seven days, for each value of today *)

Lemma week_layout (today : nat) :
  today < 7 ->
  map fst (initScores today) = rev (orderedDays today)
  /\ forInOrder (rev (orderedDays today)) = rev (orderedDays today)
  /\ sortBy (indexOf (orderedDays today)) (orderedDays today)
     = orderedDays today
  /\ length (orderedDays today) = 7
  /\ last (orderedDays today) "" = nth today days "".
Proof.
intros H.
destruct today as [|[|[|[|[|[|[|n]]]]]]]; try lia;
  repeat split; vm_compute; reflexivity.
Qed.

Lemma week_zeroed (today : nat) (k : string) :
  today < 7 -> In k days ->
  getOwn (initScores today) k = Some 0%float
  /\ arrayIndex k = None.
Proof.
intros H Hk. cbn in Hk.
destruct today as [|[|[|[|[|[|[|n]]]]]]]; try lia;
  destruct Hk as [<-|[<-|[<-|[<-|[<-|[<-|[<-|[]]]]]]]];
  split; vm_compute; reflexivity.
Qed.

Lemma dayName_valid (d : nat) : d < 7 -> In (dayName (Some d)) days.
Proof. intros H. cbn [dayName]. apply nth_In. cbn. lia. Qed.

Lemma getOwn_In {V : Type} (o : list (string * V)) (k : string) (v : V) :
  getOwn o k = Some v -> In k (map fst o).
Proof.
induction o as [|[j x] r IH]; cbn; [discriminate|].
destruct (String.eqb j k) eqn:E.
- apply String.eqb_eq in E. now left.
- intros H. right. now apply IH.
Qed.

Lemma forInOrder_keeps (ks : list string) (k : string) :
  In k ks -> arrayIndex k = None -> In k (forInOrder ks).
Proof.
intros Hin Hk. unfold forInOrder. apply in_or_app. right.
apply filter_In. split; auto. now rewrite Hk.
Qed.

Lemma forInOrder_from (ks : list string) (k : string) :
  In k (forInOrder ks) -> In k ks.
Proof.
unfold forInOrder. intros H. apply in_app_or in H. destruct H as [H|H].
- apply in_map_iff in H. destruct H as ([n j] & <- & H). cbn.
  clear - H. induction ks as [|x r IH]; cbn in H; [contradiction|].
  destruct (arrayIndex x) as [m|]; [|right; auto].
  assert (Hins : forall l, In (n, j) (insertIndex m x l) ->
                           (n, j) = (m, x) \/ In (n, j) l).
  { clear. induction l as [|[a b] l IHl]; cbn.
    - intuition.
    - destruct (m <? a)%N; cbn; intuition. }
  apply Hins in H. destruct H as [H|H]; [left; congruence | right; auto].
- apply filter_In in H. tauto.
Qed.

Lemma dailyScores_day (today : nat) (getDay : string -> option nat)
    (rs : list t) (k : string) :
  today < 7 -> In k days ->
  getOwn (dailyScores today getDay rs) k = Some (dayTotal getDay rs k).
Proof.
intros H Hk. unfold dailyScores, dayTotal.
destruct (week_zeroed today k H Hk) as [Hz _].
now rewrite (fold_add_getOwn getDay rs _ k _ Hz).
Qed.

(** With today's week day below 7 and every result dated validly, the
    chart has exactly seven bars, named by the week days in order from
    six days ago up to today, whatever the results are. *)
Theorem weekly_chart_is_the_last_seven_days (today : nat)
    (getDay : string -> option nat) (rs : list t) :
  today < 7 ->
  (forall r, In r rs ->
             exists d, getDay (created_at r) = Some d /\ d < 7) ->
  map WeeklyProgress.name (processWeeklyData today getDay rs)
  = orderedDays today
  /\ length (processWeeklyData today getDay rs) = 7
  /\ last (map WeeklyProgress.name (processWeeklyData today getDay rs)) ""
     = nth today days "".
Proof.
intros H Hv.
destruct (week_layout today H) as (Hkeys & Hfor & Hsort & Hlen & Hlast).
assert (Hn : map WeeklyProgress.name (processWeeklyData today getDay rs)
             = orderedDays today).
{ unfold processWeeklyData. cbv zeta.
  rewrite (sortBy_map WeeklyProgress.name (indexOf (orderedDays today))).
  rewrite map_rev, map_map. cbn [WeeklyProgress.name]. rewrite map_id.
  unfold dailyScores. rewrite fold_add_keys_valid.
  - now rewrite Hkeys, Hfor, rev_involutive.
  - intros r Hr. destruct (Hv r Hr) as (d & -> & Hd).
    unfold hasOwn.
    destruct (week_zeroed today _ H (dayName_valid d Hd)) as [-> _].
    reflexivity. }
split; [exact Hn|]. split.
- rewrite <- (length_map WeeklyProgress.name), Hn. exact Hlen.
- rewrite Hn. exact Hlast.
Qed.

Lemma weekly_chart_is_the_last_seven_days_witness :
  map WeeklyProgress.name
      (processWeeklyData 3 sampleGetDay
         [on "mon" 2; on "wed" 3; on "mon" 1; on "sat" 5])
  = orderedDays 3.
Proof.
destruct (weekly_chart_is_the_last_seven_days 3 sampleGetDay
            [on "mon" 2; on "wed" 3; on "mon" 1; on "sat" 5])
  as (H & _).
- lia.
- intros r [<-|[<-|[<-|[<-|[]]]]];
    [exists 1 | exists 3 | exists 1 | exists 6]; split;
    try reflexivity; lia.
- exact H.
Defined.

(** Every week day has a bar, and the bar of a day shows the points
    (score times 100) of the results falling on that week day, added in
    list order; this holds whether or not other results carry invalid
    dates. *)
Theorem weekly_bar_is_the_day_total (today : nat)
    (getDay : string -> option nat) (rs : list t) (k : string) :
  today < 7 -> In k days ->
  In {| WeeklyProgress.name := k;
        WeeklyProgress.score := dayTotal getDay rs k |}
     (processWeeklyData today getDay rs)
  /\ (forall e, In e (processWeeklyData today getDay rs) ->
                WeeklyProgress.name e = k ->
                WeeklyProgress.score e = dayTotal getDay rs k).
Proof.
intros H Hk.
pose proof (dailyScores_day today getDay rs k H Hk) as Hget.
destruct (week_zeroed today k H Hk) as [_ Hidx].
unfold processWeeklyData. cbv zeta. split.
- apply sortBy_In, in_rev. rewrite rev_involutive.
  apply in_map_iff. exists k. rewrite Hget. split; [reflexivity|].
  apply forInOrder_keeps; auto. eapply getOwn_In; eauto.
- intros e He Hname. apply sortBy_In in He. apply in_rev in He.
  rewrite ?rev_involutive in He.
  apply in_map_iff in He. destruct He as (j & <- & _).
  cbn in Hname. subst j. cbn. now rewrite Hget.
Qed.

Lemma weekly_bar_is_the_day_total_witness :
  In {| WeeklyProgress.name := "Mon";
        WeeklyProgress.score :=
          dayTotal sampleGetDay
            [on "mon" 2; on "bad" 3; on "mon" 1; on "sat" 5] "Mon" |}
     (processWeeklyData 3 sampleGetDay
        [on "mon" 2; on "bad" 3; on "mon" 1; on "sat" 5]).
Proof.
destruct (weekly_bar_is_the_day_total 3 sampleGetDay
            [on "mon" 2; on "bad" 3; on "mon" 1; on "sat" 5] "Mon")
  as (H & _).
- lia.
- cbn. tauto.
- exact H.
Defined.

(** *** A result with an invalid date *)

Lemma nan_add (x : float) : (nan + x)%float = nan.
Proof. apply Prim2SF_inj. rewrite add_spec. reflexivity. Qed.

Lemma week_without_undefined (today : nat) :
  today < 7 ->
  getOwn (initScores today) "undefined" = None
  /\ forInOrder (rev (orderedDays today) ++ ["undefined"])
     = rev (orderedDays today) ++ ["undefined"]
  /\ indexOf (orderedDays today) "undefined" = (-1)%Z.
Proof.
intros H.
destruct today as [|[|[|[|[|[|[|n]]]]]]]; try lia;
  repeat split; vm_compute; reflexivity.
Qed.

Lemma dayName_cases (i : option nat) :
  (In (dayName i) days /\ String.eqb (dayName i) "undefined" = false)
  \/ dayName i = "undefined".
Proof.
destruct i as [[|[|[|[|[|[|[|n]]]]]]]|]; cbn; try (left; split; tauto).
- right. now destruct n.
- now right.
Qed.

Lemma indexFrom_lower (i : Z) (l : list string) (k : string) :
  (-1 <= i)%Z -> (-1 <= indexFrom i l k)%Z.
Proof.
revert i. induction l as [|x r IH]; intros i Hi; cbn; [lia|].
destruct (String.eqb x k); [lia|]. apply IH. lia.
Qed.

Lemma insertSorted_lowest {A : Type} (rank : A -> Z) (x : A) (l : list A) :
  (forall y, rank x <= rank y)%Z -> insertSorted rank x l = x :: l.
Proof.
intros H. destruct l as [|y r]; cbn; auto.
replace (rank x <=? rank y)%Z with true; auto.
symmetry. apply Z.leb_le, H.
Qed.

Section InvalidDates.
Variable today : nat.
Variable getDay : string -> option nat.

Let invalid (r : t) : bool :=
  String.eqb (dayName (getDay (created_at r))) "undefined".

Lemma fold_nan (rs : list t) (k : string) :
  fold_left
    (fun a r =>
       if String.eqb (dayName (getDay (created_at r))) k
       then (a + score r * 100)%float else a)
    rs nan
  = nan.
Proof.
induction rs as [|r rs IH]; cbn; auto.
destruct (String.eqb _ k); [rewrite nan_add|]; exact IH.
Qed.

Lemma fold_add_undefined (rs : list t) (o : list (string * float)) :
  getOwn o "undefined" = None ->
  getOwn (fold_left (addDay getDay) rs o) "undefined"
  = if existsb invalid rs then Some nan else None.
Proof.
revert o. induction rs as [|r rs IH]; intros o Ho; cbn; auto.
unfold invalid at 1.
destruct (String.eqb (dayName (getDay (created_at r))) "undefined") eqn:E.
- cbn. apply String.eqb_eq in E.
  rewrite (fold_add_getOwn getDay rs (addDay getDay o r) "undefined" nan).
  + now rewrite fold_nan.
  + unfold addDay. rewrite addProp_getOwn, E, Ho. reflexivity.
- cbn. apply IH. unfold addDay. now rewrite addProp_getOwn, E.
Qed.

Lemma fold_add_keys (rs : list t) (o : list (string * float)) :
  (forall k, In k days -> hasOwn o k = true) ->
  map fst (fold_left (addDay getDay) rs o)
  = map fst o
    ++ (if hasOwn o "undefined" then []
        else if existsb invalid rs then ["undefined"] else []).
Proof.
revert o. induction rs as [|r rs IH]; intros o Hd; cbn.
- destruct (hasOwn o "undefined"); now rewrite app_nil_r.
- assert (Hk : map fst (addDay getDay o r)
               = if hasOwn o (dayName (getDay (created_at r)))
                 then map fst o
                 else map fst o ++ [dayName (getDay (created_at r))])
    by apply addProp_keys.
  assert (Hd' : forall k, In k days -> hasOwn (addDay getDay o r) k = true).
  { intros k Hin. specialize (Hd k Hin).
    rewrite hasOwn_keys in Hd |- *. rewrite Hk.
    destruct (hasOwn o (dayName (getDay (created_at r)))); auto.
    rewrite existsb_app, Hd. reflexivity. }
  rewrite (IH (addDay getDay o r) Hd'). clear IH Hd'.
  assert (Hi : invalid r
               = String.eqb (dayName (getDay (created_at r))) "undefined")
    by reflexivity.
  rewrite Hi. clear Hi.
  destruct (dayName_cases (getDay (created_at r))) as [[Hin Hne]|Hu].
  + rewrite (Hd _ Hin) in Hk.
    assert (Hh : hasOwn (addDay getDay o r) "undefined"
                 = hasOwn o "undefined")
      by (now rewrite !hasOwn_keys, Hk).
    now rewrite Hk, Hh, Hne.
  + rewrite Hu in *. rewrite String.eqb_refl. cbn [orb].
    destruct (hasOwn o "undefined") eqn:Eo.
    * assert (Hh : hasOwn (addDay getDay o r) "undefined" = true)
        by (now rewrite hasOwn_keys, Hk, <- hasOwn_keys).
      now rewrite Hk, Hh.
    * assert (Hh : hasOwn (addDay getDay o r) "undefined" = true).
      { rewrite hasOwn_keys, Hk, existsb_app. cbn [existsb].
        rewrite String.eqb_refl. now rewrite orb_true_r. }
      now rewrite Hk, Hh, app_nil_r.
Qed.

End InvalidDates.

(** A result whose date cannot be parsed adds an eighth bar, named
    "undefined", whose value is NaN; it is placed before the seven
    days. *)
Theorem invalid_date_adds_an_undefined_bar (today : nat)
    (getDay : string -> option nat) (rs : list t) :
  today < 7 ->
  (exists r, In r rs /\ getDay (created_at r) = None) ->
  exists rest,
    processWeeklyData today getDay rs
    = {| WeeklyProgress.name := "undefined"; WeeklyProgress.score := nan |}
      :: rest
    /\ map WeeklyProgress.name rest = orderedDays today.
Proof.
intros H (r & Hr & Hnone).
destruct (week_layout today H) as (Hkeys & _ & Hsort & _).
destruct (week_without_undefined today H) as (Hu & Hfor & Hidx).
assert (Hinv : existsb
                 (fun r => String.eqb (dayName (getDay (created_at r)))
                                      "undefined") rs = true).
{ apply existsb_exists. exists r. split; auto. now rewrite Hnone. }
assert (Hk : map fst (dailyScores today getDay rs)
             = rev (orderedDays today) ++ ["undefined"]).
{ unfold dailyScores. rewrite fold_add_keys.
  - unfold hasOwn. now rewrite Hu, Hinv, Hkeys.
  - intros k Hin. unfold hasOwn.
    now destruct (week_zeroed today k H Hin) as [-> _]. }
assert (Hv : getOwn (dailyScores today getDay rs) "undefined" = Some nan).
{ unfold dailyScores. now rewrite fold_add_undefined, Hinv. }
unfold processWeeklyData. cbv zeta.
rewrite Hk, Hfor, map_app, rev_app_distr. cbn [map rev app].
rewrite Hv. cbn [sortBy].
rewrite insertSorted_lowest.
- eexists. split; [reflexivity|].
  rewrite (sortBy_map WeeklyProgress.name (indexOf (orderedDays today))).
  rewrite map_rev, map_map. cbn [WeeklyProgress.name].
  now rewrite map_id, rev_involutive.
- intros y. cbn [WeeklyProgress.name]. rewrite Hidx.
  apply indexFrom_lower. lia.
Qed.

Lemma invalid_date_adds_an_undefined_bar_witness :
  exists rest,
    processWeeklyData 3 sampleGetDay [on "mon" 2; on "bad" 3]
    = {| WeeklyProgress.name := "undefined"; WeeklyProgress.score := nan |}
      :: rest
    /\ map WeeklyProgress.name rest = orderedDays 3.
Proof.
apply (invalid_date_adds_an_undefined_bar 3 sampleGetDay
         [on "mon" 2; on "bad" 3]).
- lia.
- exists (on "bad" 3). split; [cbn; tauto | reflexivity].
Defined.

End WeeklyFacts.

(** ** The auth and theme providers *)

Module AppContextsFacts.
Import Types AppContexts.

(** After every auth change the provider has stopped loading, holds the
    session it was given and that session's user, and holds no profile
    when there is no user; the route guard then shows the application
    exactly when there is a session, and the log-in page otherwise. *)
Theorem auth_change_settles (B : Backend) (event : string)
    (sess : option Session) (s : State) :
  let s' := fst (handleAuthChange B event sess s) in
  loading s' = false
  /\ session s' = sess
  /\ user s' = option_map sessionUser sess
  /\ (user s' = None -> profile s' = None)
  /\ protectedRoute s'
     = match sess with Some _ => Children | None => RedirectToAuth end
  /\ (isPasswordRecovery s' = true <->
      event = "PASSWORD_RECOVERY" \/ isPasswordRecovery s = true).
Proof.
cbv zeta. unfold handleAuthChange, protectedRoute.
assert (Hr : forall b,
          (if String.eqb event "PASSWORD_RECOVERY" then true else b) = true
          <-> event = "PASSWORD_RECOVERY" \/ b = true).
{ intros b. destruct (String.eqb event "PASSWORD_RECOVERY") eqn:E.
  - apply String.eqb_eq in E. tauto.
  - apply String.eqb_neq in E. tauto. }
destruct sess as [[cu]|]; cbn [option_map sessionUser].
- destruct (error (selectProfile B (AuthUser.id cu))) as [e|].
  + destruct (String.eqb (code e) "PGRST116").
    * destruct (error (insertProfile B _ _ _)); cbn;
        repeat split; try discriminate; apply Hr.
    * destruct (data (selectProfile B (AuthUser.id cu))); cbn;
        repeat split; try discriminate; apply Hr.
  + destruct (data (selectProfile B (AuthUser.id cu))); cbn;
      repeat split; try discriminate; apply Hr.
- cbn. repeat split; apply Hr.
Qed.

(** A profile is created only for a signed-in user whose profile query
    failed with code PGRST116 (no row), and then with score 0, the user's
    id, and as user name the part of the e-mail address before the [@]. *)
Theorem profile_created_only_when_missing (B : Backend) (event : string)
    (sess : option Session) (s : State) (i : string) (n : option string)
    (z : Z) :
  In (CreateProfile i n z) (snd (handleAuthChange B event sess s)) ->
  z = 0%Z
  /\ exists cu e,
       sess = Some {| sessionUser := cu |}
       /\ i = AuthUser.id cu
       /\ n = option_map beforeAt (AuthUser.email cu)
       /\ error (selectProfile B (AuthUser.id cu)) = Some e
       /\ code e = "PGRST116".
Proof.
unfold handleAuthChange.
destruct sess as [[cu]|]; cbn [option_map sessionUser]; [|intros []].
destruct (error (selectProfile B (AuthUser.id cu))) as [e|] eqn:Ee.
- destruct (String.eqb (code e) "PGRST116") eqn:Ec.
  + apply String.eqb_eq in Ec.
    destruct (error (insertProfile B _ _ _)); cbn; intros H.
    * destruct H as [H|[H|[]]]; [|discriminate].
      inversion H; subst. split; auto. exists cu, e. auto.
    * destruct H as [H|[]].
      inversion H; subst. split; auto. exists cu, e. auto.
  + destruct (data (selectProfile B (AuthUser.id cu))); cbn;
      intros H; repeat (destruct H as [H|H]; try discriminate);
      contradiction.
- destruct (data (selectProfile B (AuthUser.id cu))); cbn; intros [].
Qed.

Lemma profile_created_only_when_missing_witness :
  0%Z = 0%Z
  /\ exists cu e,
       Some {| sessionUser := bob |} = Some {| sessionUser := cu |}
       /\ "bob" = AuthUser.id cu
       /\ Some "bob" = option_map beforeAt (AuthUser.email cu)
       /\ error (selectProfile emptyBackend (AuthUser.id cu)) = Some e
       /\ code e = "PGRST116".
Proof.
apply (profile_created_only_when_missing emptyBackend "SIGNED_IN"
         (Some {| sessionUser := bob |}) mountState "bob" (Some "bob") 0).
vm_compute. tauto.
Defined.

(** The user name taken from an address: for a local part without [@],
    [beforeAt] of local part, [@] and anything is the local part; an
    address without [@] is kept whole. *)
Theorem beforeAt_local_part (l r : string) :
  (forall c, In c (list_ascii_of_string l) -> c <> "@"%char) ->
  beforeAt (l ++ String "@" r) = l /\ beforeAt l = l.
Proof.
induction l as [|c l IH]; cbn; intros H; [now split|].
assert (Hc : Ascii.eqb c "@" = false).
{ apply Ascii.eqb_neq. apply H. now left. }
rewrite Hc. destruct IH as [H1 H2].
{ intros x Hx. apply H. now right. }
now rewrite H1, H2.
Qed.

Lemma beforeAt_local_part_witness :
  beforeAt ("ann.lee" ++ String "@" "example.org") = "ann.lee"
  /\ beforeAt "ann.lee" = "ann.lee".
Proof.
apply (beforeAt_local_part "ann.lee" "example.org").
intros c H. cbn in H.
repeat (destruct H as [<-|H]; [discriminate|]). contradiction.
Defined.

(** Toggling always lands on one of the two themes and stores it, so a
    reload after a toggle starts with the same theme, whatever the system
    preference; from then on two toggles give the state back, and the root
    element is dark exactly after a toggle from light. *)
Theorem theme_toggle_round_trip (s : ThemeState) (prefersDark : bool) :
  let s1 := toggleTheme s in
  (theme s1 = "light" \/ theme s1 = "dark")
  /\ stored s1 = Some (theme s1)
  /\ initialTheme (stored s1) prefersDark = theme s1
  /\ toggleTheme (toggleTheme s1) = s1
  /\ (darkClass s1 = true <-> theme s = "light").
Proof.
cbv zeta. unfold toggleTheme, darkClass.
destruct (String.eqb (theme s) "light") eqn:E; cbn.
- apply String.eqb_eq in E. repeat split; auto.
- apply String.eqb_neq in E. repeat split; auto; try discriminate.
Qed.

End AppContextsFacts.
